(** * CodeGeneration-Frontend: session state, request gateway, rate cache
      and transfer form, embedded from the TypeScript sources.

    Conventions of the embedding.
    - A JS [number] holding an epoch time in milliseconds or a duration in
      seconds is a [Z]; a [number] holding money or an exchange rate is an
      exact rational [Q] (binary64 rounding is outside the model).
    - [string | null] is [option string]; JS truthiness of such a value
      ([!x], [x || d]) is written out: [null] and the empty string are falsy.
    - [new Date().getTime()] and [Date.now()] are read from an explicit
      argument.
    - An [async] function is cut at its [await]: the synchronous prefix and
      the continuation are separate transitions, and the awaited result is an
      argument of the continuation. *)

From Stdlib Require Import ZArith QArith Qminmax Lia Lqa List Ascii String.
From Stdlib Require Import DecimalString DecimalZ.
From Stdlib Require Import Qround Permutation Sorted.
From stdpp Require Import base option gmap strings.
Import ListNotations.

Local Open Scope string_scope.
Local Open Scope list_scope.
Local Open Scope Z_scope.

(** ** JavaScript values shared by the modules *)

(** [!s] is false exactly for a present, non-empty string. *)
Definition truthy (s : option string) : bool :=
  match s with
  | Some s => negb (String.eqb s "")
  | None => false
  end.

(** [s || null] on a [string | null]. *)
Definition or_null (s : option string) : option string :=
  if truthy s then s else None.

(** [s || d] on a [string | null] with a string default. *)
Definition or_else (s : option string) (d : string) : string :=
  match s with
  | Some s => if String.eqb s "" then d else s
  | None => d
  end.

(** [n.toString()] for an integral number. *)
Definition toString (z : Z) : string := NilZero.string_of_int (Z.to_int z).

(** [Number(s)] on decimal integer literals, the strings [toString] writes;
    [None] is NaN, which every other string is mapped to. *)
Definition Number (s : string) : option Z :=
  option_map Z.of_int (NilZero.int_of_string s).

(** What an awaited HTTP call settles to: a response body, or an error whose
    [response.status] is absent when no response arrived at all. *)
Inductive HttpResult (A : Type) : Type :=
| HttpOk (data : A)
| HttpError (status : option Z).
Arguments HttpOk {A} data.
Arguments HttpError {A} status.

(** A value a [try] block finishes with: returned or thrown. *)
Inductive Outcome (E A : Type) : Type :=
| Returned (a : A)
| Thrown (e : E).
Arguments Returned {E A} a.
Arguments Thrown {E A} e.

(** The responses on which [validateToken] logs out: none at all, or a
    401. *)
Definition rejects_token {A : Type} (resp : HttpResult A) : bool :=
  match resp with
  | HttpError None => true
  | HttpError (Some st) => st =? 401
  | HttpOk _ => false
  end.

(** ** stores/auth.store.ts *)
Module AuthStore.
Section WithUser.

(** models.d.ts [User], with the JSON codec the store calls on it;
    [JSON_parse] is [None] where [JSON.parse] throws. *)
Variable User : Type.
Variable JSON_stringify : User -> string.
Variable JSON_parse : string -> option User.

(** [interface AuthState]. The state field [refreshToken] is named after
    its storage key, since the action of that name keeps the source's.
    [expiresAt] is [None] for [null] and for NaN, both falsy and both
    failing every comparison. *)
Record AuthState := mkAuthState {
  token : option string;
  refresh_token : option string;
  user : option User;
  expiresAt : option Z;
  isAuthenticated : bool
}.

(** The browser objects the store touches: [localStorage],
    [window.location.href], and the fire-and-forget requests sent. *)
Record Browser := mkBrowser {
  localStorage : gmap string string;
  href : string;
  posted : list (string * string)
}.

Definition getItem (k : string) (b : Browser) : option string :=
  localStorage b !! k.

Definition setItem (k v : string) (b : Browser) : Browser :=
  mkBrowser (<[k := v]> (localStorage b)) (href b) (posted b).

Definition removeItem (k : string) (b : Browser) : Browser :=
  mkBrowser (delete k (localStorage b)) (href b) (posted b).

Definition safeJsonParse (value : option string) : option User :=
  match value with
  | None => None
  | Some v =>
      if String.eqb v "" || String.eqb v "null" || String.eqb v "undefined"
      then None
      else JSON_parse v
  end.

(** [state: () => ({...})], run when a store instance is created. *)
Definition state (b : Browser) : AuthState :=
  {| token := or_null (getItem "token" b);
     refresh_token := or_null (getItem "refresh_token" b);
     user := safeJsonParse (getItem "user" b);
     expiresAt := Number (or_else (getItem "token_expires_at" b) "0");
     isAuthenticated := false |}.

(** [!this.expiresAt] is false exactly for a number other than 0. *)
Definition truthy_num (n : option Z) : bool :=
  match n with
  | Some z => negb (z =? 0)
  | None => false
  end.

Definition isLoggedIn (s : AuthState) (now : Z) : bool :=
  if negb (truthy (token s)) || negb (truthy_num (expiresAt s)) then false
  else match expiresAt s with
       | Some e => e >? now
       | None => false
       end.

Definition currentUser (s : AuthState) : option User := user s.

Definition authToken (s : AuthState) : option string := token s.

Record AuthResult := mkAuthResult {
  ar_token : string;
  ar_refreshToken : string;
  ar_user : User;
  ar_expiresIn : Z
}.

Definition setSession (authResult : AuthResult) (now : Z)
    (sb : AuthState * Browser) : AuthState * Browser :=
  let expires := now + ar_expiresIn authResult * 1000 in
  let s := {| token := Some (ar_token authResult);
              refresh_token := Some (ar_refreshToken authResult);
              user := Some (ar_user authResult);
              expiresAt := Some expires;
              isAuthenticated := true |} in
  let b := setItem "token" (ar_token authResult) (snd sb) in
  let b := setItem "refresh_token" (ar_refreshToken authResult) b in
  let b := setItem "user" (JSON_stringify (ar_user authResult)) b in
  let b := setItem "token_expires_at" (toString expires) b in
  (s, b).

Definition logout (sb : AuthState * Browser) : AuthState * Browser :=
  let '(s, b) := sb in
  let b :=
    if truthy (token s)
    then mkBrowser (localStorage b) (href b)
           (posted b ++ [("/auth/logout", default "" (token s))])
    else b in
  let s := {| token := None; refresh_token := None; user := None;
              expiresAt := None; isAuthenticated := false |} in
  let b := removeItem "token" b in
  let b := removeItem "refresh_token" b in
  let b := removeItem "user" b in
  let b := removeItem "token_expires_at" b in
  (s, mkBrowser (localStorage b) "/login" (posted b)).

(** [validateToken]. [resp] is what the awaited GET of /auth/validate
    settles to, consumed only when the request is sent; a response body
    that is not a user object is [None]. Nothing escapes the [try]. *)
Definition validateToken (now : Z) (resp : HttpResult (option User))
    (sb : AuthState * Browser) : option User * (AuthState * Browser) :=
  let '(s, b) := sb in
  if negb (isLoggedIn s now) then (None, sb)
  else if negb (truthy (token s)) then (None, sb)
  else match resp with
       | HttpOk data =>
           (data, ({| token := token s; refresh_token := refresh_token s;
                      user := data; expiresAt := expiresAt s;
                      isAuthenticated := isAuthenticated s |}, b))
       | HttpError status =>
           match status with
           | None => (None, logout sb)
           | Some st => if st =? 401 then (None, logout sb) else (None, sb)
           end
       end.

(** [refreshToken], over the call it awaits: [validate] is the awaited
    [this.validateToken()], which may return or throw after changing the
    store. [!!user] is [true] for a user object. *)
Definition refreshToken_over {E : Type}
    (validate : AuthState * Browser ->
                Outcome E (option User) * (AuthState * Browser))
    (sb : AuthState * Browser) : bool * (AuthState * Browser) :=
  if negb (truthy (refresh_token (fst sb))) then (false, sb)
  else match validate sb with
       | (Returned u, sb') => (bool_decide (is_Some u), sb')
       | (Thrown _, sb') => (false, sb')
       end.

(** [refreshToken] as the store has it, with its own [validateToken]. *)
Definition refreshToken (now : Z) (resp : HttpResult (option User))
    (sb : AuthState * Browser) : bool * (AuthState * Browser) :=
  refreshToken_over (E := unit)
    (fun sb => let '(u, sb') := validateToken now resp sb in
               (Returned u, sb'))
    sb.

(** [login]: [resp] is what the awaited POST of /auth/login settles to and
    [now] the clock when it does. On an error the store is untouched and
    the error, here its status, is thrown again. *)
Definition login (username password : string) (now : Z)
    (resp : HttpResult AuthResult) (sb : AuthState * Browser)
    : Outcome (option Z) AuthResult * (AuthState * Browser) :=
  match resp with
  | HttpOk data => (Returned data, setSession data now sb)
  | HttpError status => (Thrown status, sb)
  end.

End WithUser.

Arguments token {User} _.
Arguments refresh_token {User} _.
Arguments user {User} _.
Arguments expiresAt {User} _.
Arguments isAuthenticated {User} _.
Arguments mkAuthState {User} _ _ _ _ _.
Arguments mkAuthResult {User} _ _ _ _.
Arguments state {User} JSON_parse b.
Arguments isLoggedIn {User} s now.
Arguments authToken {User} s.
Arguments setSession {User} JSON_stringify authResult now sb.
Arguments logout {User} sb.
Arguments validateToken {User} now resp sb.
Arguments refreshToken_over {User E} validate sb.
Arguments refreshToken {User} now resp sb.
Arguments login {User} JSON_stringify username password now resp sb.

(** [authStore.authToken] as the interceptors read it off the store. *)
Definition tokenOf {User : Type} (sb : AuthState User * Browser)
    : option string :=
  authToken sb.1.
End AuthStore.

(** ** The axios instance with the refresh-and-replay interceptors
       (imported by the views as services/http.interceptor) *)
Module HttpInterceptor.

(** [AxiosRequestConfig & { _retry?: boolean }]: an absent [_retry] is
    [false], an absent [headers] object is [None]. *)
Record RequestConfig := mkRequest {
  url : string;
  headers : option (gmap string string);
  _retry : bool
}.

(** [AxiosError]: the request's config and [error.response?.status]. *)
Record AxiosError := mkAxiosError {
  config : RequestConfig;
  response_status : option Z
}.

(** What a promise of the gateway is rejected with. *)
Inductive JsError :=
| AxiosErr (e : AxiosError)
| ConnectionFailed   (* { status: 0, message: 'Server connection failed...' } *)
| OtherError (msg : string).

(** What the promise returned by the error handler is bound to. *)
Inductive Settled :=
| Reject (e : JsError)              (* Promise.reject(e) *)
| Replay (cfg : RequestConfig).     (* the promise of axios(cfg) *)

(** A queued callback closes over [originalRequest] (and its [resolve]). *)
Record Subscriber := mkSubscriber { originalRequest : RequestConfig }.

(** The module-level [let] variables. *)
Record Gateway := mkGateway {
  isRefreshing : bool;
  refreshSubscribers : list Subscriber
}.

Definition initial : Gateway := mkGateway false [].

Definition subscribeTokenRefresh (callback : Subscriber) (g : Gateway)
    : Gateway :=
  mkGateway (isRefreshing g) (refreshSubscribers g ++ [callback]).

Definition setAuthorization (tok : string) (cfg : RequestConfig)
    : RequestConfig :=
  match headers cfg with
  | Some h => mkRequest (url cfg)
                (Some (<["Authorization" := "Bearer " +:+ tok]> h))
                (_retry cfg)
  | None => cfg
  end.

(** The body of a queued callback: [callback(token)] sets the header when
    the token is non-empty and binds the waiter's promise to
    [axios(originalRequest)]. *)
Definition callback (cb : Subscriber) (tok : string) : Settled :=
  Replay (if String.eqb tok "" then originalRequest cb
          else setAuthorization tok (originalRequest cb)).

(** One call [callback(token)] made by a [forEach]: who was called, with
    what, and what the waiter's promise was bound to. *)
Record Invocation := mkInvocation {
  called : Subscriber;
  argument : string;
  bound : Settled
}.

Definition forEach_call (tok : string) (subs : list Subscriber)
    : list Invocation :=
  map (fun cb => mkInvocation cb tok (callback cb tok)) subs.

(** [onTokenRefreshed]: the calls made, in [forEach] order, and the gateway
    with the list reassigned. *)
Definition onTokenRefreshed (newToken : string) (g : Gateway)
    : list Invocation * Gateway :=
  (forEach_call newToken (refreshSubscribers g),
   mkGateway (isRefreshing g) []).

(** [onRefreshError]; the rejected promise it returns is dropped by both
    callers. *)
Definition onRefreshError (g : Gateway) : list Invocation * Gateway :=
  (forEach_call "" (refreshSubscribers g),
   mkGateway (isRefreshing g) []).

(** How one call of the response error handler leaves its promise. *)
Inductive Handled :=
| Finished (s : Settled)
| Queued (cb : Subscriber)          (* pending until the callback runs *)
| AwaitRefresh (error : AxiosError). (* suspended at await refreshToken() *)

(** The error handler up to its first suspension. *)
Definition onResponseError (error : AxiosError) (g : Gateway)
    : Handled * Gateway :=
  let originalRequest := config error in
  if match response_status error with
     | Some st => (st =? 401) && negb (_retry originalRequest)
     | None => false
     end
  then
    if isRefreshing g
    then let cb := mkSubscriber originalRequest in
         (Queued cb, subscribeTokenRefresh cb g)
    else
      let originalRequest :=
        mkRequest (url originalRequest) (headers originalRequest) true in
      (AwaitRefresh (mkAxiosError originalRequest (response_status error)),
       mkGateway true (refreshSubscribers g))
  else
    match response_status error with
    | None => (Finished (Reject ConnectionFailed), g)
    | Some _ => (Finished (Reject (AxiosErr error)), g)
    end.

(** How [setAuthorization] relates a config to the one it returns: the
    same request, with [Bearer tok] under Authorization when it has a
    headers object and every other header as it was. *)
Definition reauthorized (tok : string) (before after : RequestConfig)
    : Prop :=
  url after = url before /\
  _retry after = _retry before /\
  match headers before with
  | Some h =>
      exists h', headers after = Some h' /\
                 h' !! "Authorization" = Some ("Bearer " +:+ tok) /\
                 forall k, k <> "Authorization" -> h' !! k = h !! k
  | None => headers after = None
  end.

(** What resuming after the [await] produces. *)
Record Resumed {Store : Type} := mkResumed {
  original : Settled;            (* the handler's own promise *)
  waiters : list Invocation;     (* the callbacks called, in call order *)
  gateway : Gateway;
  store : Store
}.
Arguments Resumed Store : clear implicits.
Arguments mkResumed {Store} original waiters gateway store.

Section WithStore.
(** The auth store as the handler uses it. *)
Variable Store : Type.
Variable authToken : Store -> option string.
Variable logout : Store -> Store.

(** The handler from the [await] on: [refreshed] is what
    [authStore.refreshToken()] settled to, [error] the handler's
    argument (its config already marked), [s] the store at that time. *)
Definition afterRefresh (error : AxiosError)
    (refreshed : Outcome JsError bool) (g : Gateway) (s : Store)
    : Resumed Store :=
  let originalRequest := config error in
  match refreshed with
  | Returned true =>
      let newToken := or_else (authToken s) "" in
      let '(ws, g) := onTokenRefreshed newToken g in
      let originalRequest := setAuthorization newToken originalRequest in
      let g := mkGateway false (refreshSubscribers g) in
      mkResumed (Replay originalRequest) ws g s
  | Returned false =>
      let g := mkGateway false (refreshSubscribers g) in
      let '(ws, g) := onRefreshError g in
      mkResumed (Reject (AxiosErr error)) ws g (logout s)
  | Thrown refreshError =>
      let g := mkGateway false (refreshSubscribers g) in
      let '(ws, g) := onRefreshError g in
      mkResumed (Reject refreshError) ws g (logout s)
  end.

(** *** The gateway under a schedule of events

    Handlers run to their suspension without interleaving. [suspended]
    holds the handlers parked at the [await], oldest first;
    [refreshCalls] counts the calls of [authStore.refreshToken()];
    [registered] and [invoked] log every [subscribeTokenRefresh] and
    every call of a queued callback, in program order. *)
Record System := mkSystem {
  gw : Gateway;
  authStore : Store;
  suspended : list AxiosError;
  refreshCalls : nat;
  registered : list Subscriber;
  invoked : list Invocation
}.

(** An error response reaches the interceptor, or the awaited
    [refreshToken()] settles, leaving the store as [after]. *)
Inductive Event :=
| ResponseError (error : AxiosError)
| RefreshSettled (refreshed : Outcome JsError bool) (after : Store).

Definition step (sys : System) (ev : Event) : System :=
  match ev with
  | ResponseError error =>
      match onResponseError error (gw sys) with
      | (Finished _, g) =>
          mkSystem g (authStore sys) (suspended sys) (refreshCalls sys)
            (registered sys) (invoked sys)
      | (Queued cb, g) =>
          mkSystem g (authStore sys) (suspended sys) (refreshCalls sys)
            (registered sys ++ [cb]) (invoked sys)
      | (AwaitRefresh error', g) =>
          mkSystem g (authStore sys) (suspended sys ++ [error'])
            (S (refreshCalls sys)) (registered sys) (invoked sys)
      end
  | RefreshSettled refreshed after =>
      match suspended sys with
      | [] => sys
      | error :: rest =>
          let r := afterRefresh error refreshed (gw sys) after in
          mkSystem (gateway r) (store r) rest (refreshCalls sys)
            (registered sys) (invoked sys ++ waiters r)
      end
  end.

Definition run (evs : list Event) (sys : System) : System :=
  fold_left step evs sys.

Definition boot (s : Store) : System :=
  mkSystem initial s [] 0 [] [].

(** The token a resumption hands to the queued callbacks. *)
Definition deliveredToken (refreshed : Outcome JsError bool) (s : Store)
    : string :=
  match refreshed with
  | Returned true => or_else (authToken s) ""
  | _ => ""
  end.

(** The state every schedule keeps: one handler at most is parked at the
    [await], the flag is set exactly then, the queue is empty unless it is
    set, and the registrations are the calls made so far followed by the
    queue. *)
Definition coherent (sys : System) : Prop :=
  (length (suspended sys) <= 1)%nat /\
  isRefreshing (gw sys) = negb (bool_decide (suspended sys = [])) /\
  (isRefreshing (gw sys) = false -> refreshSubscribers (gw sys) = []) /\
  registered sys = map called (invoked sys) ++ refreshSubscribers (gw sys).

(** Whether an event of a schedule is a settlement. *)
Definition is_settlement (ev : Event) : bool :=
  match ev with
  | RefreshSettled _ _ => true
  | ResponseError _ => false
  end.

(** The request interceptor: it sets the Authorization header from the
    store's token when there is one and the config has headers. *)
Definition requestInterceptor (s : Store) (config : RequestConfig)
    : RequestConfig :=
  if truthy (authToken s)
  then setAuthorization (default "" (authToken s)) config
  else config.

End WithStore.

Arguments mkSystem {Store} _ _ _ _ _ _.
Arguments gw {Store} _.
Arguments authStore {Store} _.
Arguments suspended {Store} _.
Arguments refreshCalls {Store} _.
Arguments registered {Store} _.
Arguments invoked {Store} _.
Arguments ResponseError {Store} error.
Arguments RefreshSettled {Store} refreshed after.
Arguments afterRefresh {Store} authToken logout error refreshed g s.
Arguments step {Store} authToken logout sys ev.
Arguments run {Store} authToken logout evs sys.
Arguments boot {Store} s.
Arguments deliveredToken {Store} authToken refreshed s.
Arguments coherent {Store} sys.
Arguments is_settlement {Store} ev.
Arguments requestInterceptor {Store} authToken s config.
End HttpInterceptor.

(** ** services/CurrencyService.ts *)
Module CurrencyService.

(** A value of [exchangeRatesCache]. *)
Record CacheEntry := mkCacheEntry { rate : Q; timestamp : Z }.

(** The one mutable field of the service object. *)
Definition Cache := gmap string CacheEntry.

Definition CACHE_DURATION : Z := 5 * 60 * 1000.

(** A GET of /currency/exchange-rate with its [params]. *)
Record RateRequest := mkRateRequest {
  fromCurrency : string;
  toCurrency : string;
  amount : Q
}.

(** How one lookup ends: the rate returned, the cache afterwards, and the
    requests it sent, in order. *)
Record Lookup := mkLookup {
  returned : Q;
  cache : Cache;
  sent : list RateRequest
}.

(** [fallbackRates[c] || 1.0] for the two literal tables (own keys only). *)
Definition fallbackToEur (c : string) : Q :=
  if String.eqb c "USD" then 93 # 100
  else if String.eqb c "GBP" then 116 # 100
  else if String.eqb c "CHF" then 105 # 100
  else if String.eqb c "PLN" then 24 # 100
  else 1.

Definition fallbackFromEur (c : string) : Q :=
  if String.eqb c "USD" then 108 # 100
  else if String.eqb c "GBP" then 86 # 100
  else if String.eqb c "CHF" then 95 # 100
  else if String.eqb c "PLN" then 417 # 100
  else 1.

(** [getExchangeRateToEur]. The cache hit is
    [cached && (Date.now() - cached.timestamp) < this.CACHE_DURATION];
    [now] is [Date.now()] at that check;
    [resp] is what the awaited GET settles to ([data.rate] on success) and
    [now'] is [Date.now()] when the rate is cached; both are read only on
    the path that sends the request. *)
Definition getExchangeRateToEur (fromCurrency : string) (now : Z)
    (resp : HttpResult Q) (now' : Z) (m : Cache) : Lookup :=
  if String.eqb fromCurrency "EUR" then mkLookup 1 m []
  else
    let cacheKey := fromCurrency +:+ "_EUR" in
    let cached := m !! cacheKey in
    let fetched :=
      let req := mkRateRequest fromCurrency "EUR" 1 in
      match resp with
      | HttpOk r => mkLookup r (<[cacheKey := mkCacheEntry r now']> m) [req]
      | HttpError _ => mkLookup (fallbackToEur fromCurrency) m [req]
      end in
    match cached with
    | Some c =>
        if now - timestamp c <? CACHE_DURATION
        then mkLookup (rate c) m []
        else fetched
    | None => fetched
    end.

(** [getExchangeRateFromEur], with the same reading of its arguments. *)
Definition getExchangeRateFromEur (toCurrency : string) (now : Z)
    (resp : HttpResult Q) (now' : Z) (m : Cache) : Lookup :=
  if String.eqb toCurrency "EUR" then mkLookup 1 m []
  else
    let cacheKey := "EUR_" +:+ toCurrency in
    let cached := m !! cacheKey in
    let fetched :=
      let req := mkRateRequest "EUR" toCurrency 1 in
      match resp with
      | HttpOk r => mkLookup r (<[cacheKey := mkCacheEntry r now']> m) [req]
      | HttpError _ => mkLookup (fallbackFromEur toCurrency) m [req]
      end in
    match cached with
    | Some c =>
        if now - timestamp c <? CACHE_DURATION
        then mkLookup (rate c) m []
        else fetched
    | None => fetched
    end.

Definition clearCache (m : Cache) : Cache := ∅.

(** [convertToEur] and [convertFromEur]: the converted amount, with the
    cache and the requests of the lookup behind it. *)
Definition convertToEur (amount : Q) (fromCurrency : string) (now : Z)
    (resp : HttpResult Q) (now' : Z) (m : Cache) : Lookup :=
  if String.eqb fromCurrency "EUR" then mkLookup amount m []
  else
    let l := getExchangeRateToEur fromCurrency now resp now' m in
    mkLookup (amount * returned l) (cache l) (sent l).

Definition convertFromEur (amount : Q) (toCurrency : string) (now : Z)
    (resp : HttpResult Q) (now' : Z) (m : Cache) : Lookup :=
  if String.eqb toCurrency "EUR" then mkLookup amount m []
  else
    let l := getExchangeRateFromEur toCurrency now resp now' m in
    mkLookup (amount * returned l) (cache l) (sent l).

(** What one call of the service reads besides the cache: the clock at its
    cache check, what its request settles to, and the clock then. *)
Record Call := mkCall {
  checkedAt : Z;
  settlesTo : HttpResult Q;
  storedAt : Z
}.

(** One element of [amounts], with the call made for it. *)
Record Item := mkItem {
  itemAmount : Q;
  itemCurrency : string;
  itemCall : Call
}.

(** The entry a lookup towards EUR writes to the cache, if it writes. *)
Definition writtenToEur (c : string) (k : Call) (m : Cache)
    : list (string * CacheEntry) :=
  if String.eqb c "EUR" then []
  else
    let fetched :=
      match settlesTo k with
      | HttpOk r => [(c +:+ "_EUR", mkCacheEntry r (storedAt k))]
      | HttpError _ => []
      end in
    match m !! (c +:+ "_EUR") with
    | Some e => if checkedAt k - timestamp e <? CACHE_DURATION then []
                else fetched
    | None => fetched
    end.

(** How a batch ends: the converted amounts in the order of the input, the
    requests sent, and the cache entries written. The calls are started one
    after the other by [map] and each runs to its [await] before any
    response is handled, so every cache check reads the cache as it was;
    the cache afterwards is that cache with [writes] put in the order the
    responses arrive. *)
Record Batch := mkBatch {
  conversions : list Q;
  requests : list RateRequest;
  writes : list (string * CacheEntry)
}.

Definition convertMultipleToEur (amounts : list Item) (m : Cache) : Batch :=
  let run (i : Item) :=
    convertToEur (itemAmount i) (itemCurrency i) (checkedAt (itemCall i))
      (settlesTo (itemCall i)) (storedAt (itemCall i)) m in
  mkBatch (map (fun i => returned (run i)) amounts)
    (concat (map (fun i => sent (run i)) amounts))
    (concat (map (fun i => writtenToEur (itemCurrency i) (itemCall i) m)
               amounts)).

(** [getTotalBalanceInEur]: the [reduce] over the conversions, with the
    requests of the batch. *)
Definition getTotalBalanceInEur (accounts : list Item) (m : Cache)
    : Q * Batch :=
  let b := convertMultipleToEur accounts m in
  (fold_left Qplus (conversions b) 0%Q, b).

(** Whether the call for an item goes to the network: its currency is not
    EUR and the cache has no entry younger than [CACHE_DURATION] for it. *)
Definition needsFetch (m : Cache) (i : Item) : bool :=
  negb (String.eqb (itemCurrency i) "EUR") &&
  match m !! (itemCurrency i +:+ "_EUR") with
  | Some e =>
      negb (checkedAt (itemCall i) - timestamp e <? CACHE_DURATION)
  | None => true
  end.

(** [Math.round]: the nearest integer, a tie going up. *)
Definition Math_round (q : Q) : Z := Qfloor (q + (1 # 2)).

(** [Math.round(x * 100) / 100]. *)
Definition round2 (q : Q) : Q := inject_Z (Math_round (q * 100)) / 100.

Record Limits := mkLimits {
  singleTransferLimit : Q;
  dailyTransferLimit : Q;
  singleWithdrawalLimit : Q;
  dailyWithdrawalLimit : Q
}.

Definition eurLimits : Limits := mkLimits 3000 5000 500 5000.

(** [convertLimitsToAccountCurrency]: the limits and the requests sent.
    The four conversions are started together, one call each, all reading
    the cache as it was. *)
Definition convertLimitsToAccountCurrency (accountCurrency : string)
    (k1 k2 k3 k4 : Call) (m : Cache) : Limits * list RateRequest :=
  if String.eqb accountCurrency "EUR" then (eurLimits, [])
  else
    let run (limit : Q) (k : Call) :=
      convertFromEur limit accountCurrency (checkedAt k) (settlesTo k)
        (storedAt k) m in
    let c1 := run (singleTransferLimit eurLimits) k1 in
    let c2 := run (dailyTransferLimit eurLimits) k2 in
    let c3 := run (singleWithdrawalLimit eurLimits) k3 in
    let c4 := run (dailyWithdrawalLimit eurLimits) k4 in
    (mkLimits (round2 (returned c1)) (round2 (returned c2))
       (round2 (returned c3)) (round2 (returned c4)),
     sent c1 ++ sent c2 ++ sent c3 ++ sent c4).

End CurrencyService.

(** ** components/modals/TransferModal.vue, the script part *)
Module TransferModal.

(** models.d.ts [Account], without its dates and its owner. *)
Record Account := mkAccount {
  id : Z;
  accountNumber : string;
  accountName : string;
  accountType : string;
  balance : Q;
  currency : string;
  dailyTransferLimit : Q;
  dailyWithdrawalLimit : Q;
  singleTransferLimit : Q;
  singleWithdrawalLimit : Q;
  transferUsedToday : Q;
  withdrawalUsedToday : Q
}.

(** The value of [amount]: [null] after a reset, the empty string of a
    cleared number input, or the number typed. *)
Inductive Amount :=
| AmountNull
| AmountEmpty
| AmountOf (q : Q).

(** api.config [TransferPreview], without the opaque [transaction]. *)
Record CurrencyExchange := mkCurrencyExchange {
  ex_fromCurrency : string;
  ex_toCurrency : string;
  ex_rate : Q;
  originalAmount : Q;
  convertedAmount : Q;
  rateInfo : string
}.

Record TransferPreview := mkTransferPreview {
  currencyExchangeApplied : bool;
  exchangeInfo : option CurrencyExchange;
  message : string
}.

(** The refs of the component that the modelled functions read or write. *)
Record Form := mkForm {
  fromAccount : option Account;
  toAccount : string;
  amount : Amount;
  description : string;
  isProcessing : bool;
  error : option string;
  transferPreview : option TransferPreview;
  showExchangeInfo : bool;
  isLoadingPreview : bool;
  amountError : option string;
  toAccountError : option string
}.

Definition set_amountError (e : option string) (f : Form) : Form :=
  mkForm (fromAccount f) (toAccount f) (amount f) (description f)
    (isProcessing f) (error f) (transferPreview f) (showExchangeInfo f)
    (isLoadingPreview f) e (toAccountError f).

Definition set_toAccountError (e : option string) (f : Form) : Form :=
  mkForm (fromAccount f) (toAccount f) (amount f) (description f)
    (isProcessing f) (error f) (transferPreview f) (showExchangeInfo f)
    (isLoadingPreview f) (amountError f) e.

Definition set_preview (p : option TransferPreview) (shown : bool)
    (f : Form) : Form :=
  mkForm (fromAccount f) (toAccount f) (amount f) (description f)
    (isProcessing f) (error f) p shown
    (isLoadingPreview f) (amountError f) (toAccountError f).

Definition set_isLoadingPreview (b : bool) (f : Form) : Form :=
  mkForm (fromAccount f) (toAccount f) (amount f) (description f)
    (isProcessing f) (error f) (transferPreview f) (showExchangeInfo f)
    b (amountError f) (toAccountError f).

Definition set_amount (a : Amount) (f : Form) : Form :=
  mkForm (fromAccount f) (toAccount f) a (description f)
    (isProcessing f) (error f) (transferPreview f) (showExchangeInfo f)
    (isLoadingPreview f) (amountError f) (toAccountError f).

Definition set_submitting (f : Form) : Form :=
  mkForm (fromAccount f) (toAccount f) (amount f) (description f)
    true None (transferPreview f) (showExchangeInfo f)
    (isLoadingPreview f) (amountError f) (toAccountError f).

(** JS comparisons on numbers. *)
Definition Qgtb (a b : Q) : bool := negb (Qle_bool a b).

(** [!!amount.value]: a number other than 0. *)
Definition truthy_amount (a : Amount) : bool :=
  match a with
  | AmountOf q => negb (Qeq_bool q 0)
  | _ => false
  end.

(** [amount.value > 0]. *)
Definition positive_amount (a : Amount) : bool :=
  match a with
  | AmountOf q => Qgtb q 0
  | _ => false
  end.

(** [toAccountError.value[0] == '✓'], on the bytes of the literal. *)
Definition starts_with_check (s : string) : bool := String.prefix "✓" s.

Definition isFormValid (f : Form) : bool :=
  bool_decide (is_Some (fromAccount f)) &&
  negb (String.eqb (toAccount f) "") &&
  truthy_amount (amount f) &&
  positive_amount (amount f) &&
  negb (truthy (amountError f)) &&
  (negb (truthy (toAccountError f)) ||
   starts_with_check (default "" (toAccountError f))).

Section WithContext.
(** [formatCurrency], which goes through [Intl.NumberFormat]; the
    accounts of [accountStore.allAccounts]; [props.byEmployee]. *)
Variable formatCurrency : Q -> string -> string.
Variable availableFromAccounts : list Account.
Variable byEmployee : bool.

Definition isOwnAccountTransfer (f : Form) : bool :=
  match fromAccount f with
  | Some from =>
      if String.eqb (toAccount f) "" then false
      else
        let isOwn :=
          existsb (fun acc => String.eqb (accountNumber acc) (toAccount f))
            availableFromAccounts in
        let isDifferent :=
          negb (String.eqb (toAccount f) (accountNumber from)) in
        isOwn && isDifferent
  | None => false
  end.

Definition validateAmount (f : Form) : Form :=
  let f := set_amountError None f in
  match amount f, fromAccount f with
  | AmountOf a, Some from =>
      if negb (truthy_amount (amount f)) then f
      else if Qle_bool a 0 then
        set_amountError (Some "Amount must be greater than zero") f
      else if Qgtb a (balance from) then
        set_amountError (Some "Insufficient funds") f
      else if Qgtb a (singleTransferLimit from) then
        set_amountError
          (Some ("Exceeds single transfer limit of " +:+
                 formatCurrency (singleTransferLimit from) (currency from)))
          f
      else
        let newTransferTotal := (transferUsedToday from + a)%Q in
        if Qgtb newTransferTotal (dailyTransferLimit from) then
          set_amountError
            (Some ("Exceeds daily transfer limit of " +:+
                   formatCurrency (dailyTransferLimit from) (currency from)))
            f
        else f
  | _, _ => f
  end.

(** [validateToAccount] up to its [await]: the form, and the URL of the
    account lookup when one is sent. *)
Definition validateToAccount (f : Form) : Form * option string :=
  let f := set_toAccountError None f in
  if String.eqb (toAccount f) "" then (f, None)
  else if match fromAccount f with
          | Some from => String.eqb (toAccount f) (accountNumber from)
          | None => false
          end
  then (set_toAccountError (Some "Cannot transfer to the same account") f,
        None)
  else (f, Some ("/account/details/" +:+ toAccount f)).

(** [validateToAccount] from the [await] on. *)
Definition validateToAccount_resume (resp : HttpResult unit) (f : Form)
    : Form :=
  match resp with
  | HttpOk _ =>
      if isOwnAccountTransfer f then
        let targetAccount :=
          find (fun acc => String.eqb (accountNumber acc) (toAccount f))
            availableFromAccounts in
        if byEmployee then
          set_toAccountError (Some "Can't transfer to your own account") f
        else match targetAccount with
             | Some t =>
                 set_toAccountError
                   (Some ("✓ Transfer to your " +:+ accountName t +:+
                          " (" +:+ currency t +:+ ")")) f
             | None => f
             end
      else f
  | HttpError (Some 404) => set_toAccountError None f
  | HttpError _ => f
  end.

(** The body of a POST to the preview and transfer endpoints. *)
Record TransferData := mkTransferData {
  td_fromAccount : option string;
  td_toAccount : string;
  td_amount : Amount;
  td_description : string
}.

Definition transferData (f : Form) : TransferData :=
  mkTransferData (accountNumber <$> fromAccount f) (toAccount f)
    (amount f)
    (if String.eqb (description f) "" then "Transfer" else description f).

(** [getTransferPreview] up to its [await]: the form, and the request
    when one is sent. *)
Definition getTransferPreview (f : Form) : Form * option TransferData :=
  if negb (isFormValid f) then (f, None)
  else (set_isLoadingPreview true f, Some (transferData f)).

(** [getTransferPreview] from the [await] on, [try], [catch] and
    [finally]. *)
Definition getTransferPreview_resume (resp : HttpResult TransferPreview)
    (f : Form) : Form :=
  let f :=
    match resp with
    | HttpOk data => set_preview (Some data) (currencyExchangeApplied data) f
    | HttpError _ => set_preview None false f
    end in
  set_isLoadingPreview false f.

(** The callback of [watch([fromAccount, toAccount, amount], ...)]. *)
Definition onPreviewInputs (f : Form) : Form * option TransferData :=
  if isFormValid f then getTransferPreview f
  else (set_preview None false f, None).

(** [needsCurrencyConversion] and [submitTransfer] up to its [await]:
    the form, and the transfer request with its [acceptExchangeRate]
    when one is sent. *)
Definition needsCurrencyConversion (f : Form) : bool :=
  match transferPreview f with
  | Some p => currencyExchangeApplied p
  | None => false
  end.

Definition submitTransfer (f : Form) : Form * option (TransferData * bool) :=
  if negb (isFormValid f) then (f, None)
  else (set_submitting f, Some (transferData f, needsCurrencyConversion f)).

(** *** The preview under a schedule of edits and responses

    An edit of the amount assigns the ref and runs the watcher callbacks
    in the order the watchers were created: the preview watcher, then
    [validateAmount]. A response settles one of the requests still in
    flight, whichever the network delivers. *)
Inductive Event :=
| EditAmount (a : Amount)
| PreviewSettles (i : nat) (resp : HttpResult TransferPreview).

Record Running := mkRunning {
  form : Form;
  inFlight : list TransferData
}.

Fixpoint remove_nth {A} (i : nat) (l : list A) : list A :=
  match l, i with
  | [], _ => []
  | _ :: l, O => l
  | x :: l, S i => x :: remove_nth i l
  end.

Definition step (r : Running) (ev : Event) : Running :=
  match ev with
  | EditAmount a =>
      let '(f, req) := onPreviewInputs (set_amount a (form r)) in
      mkRunning (validateAmount f)
        (inFlight r ++ match req with Some q => [q] | None => [] end)
  | PreviewSettles i resp =>
      match nth_error (inFlight r) i with
      | Some _ =>
          mkRunning (getTransferPreview_resume resp (form r))
            (remove_nth i (inFlight r))
      | None => r
      end
  end.

Definition run (evs : list Event) (r : Running) : Running :=
  fold_left step evs r.

(** The payload a settled preview call carries for the form. *)
Definition payload (resp : HttpResult TransferPreview)
    : option TransferPreview :=
  match resp with
  | HttpOk data => Some data
  | HttpError _ => None
  end.

(** The destination rule, in the spec's words: whenever the destination
    equals the number of the selected source account, the same-account
    error is set and no lookup is sent. *)
Definition same_account_always_rejected : Prop :=
  forall (f : Form) (from : Account),
    fromAccount f = Some from ->
    toAccount f = accountNumber from ->
    toAccountError (validateToAccount f).1
      = Some "Cannot transfer to the same account" /\
    (validateToAccount f).2 = None.

(** Last write wins, in the spec's words: with two preview requests in
    flight, when the younger one's response resolves first and the older
    one's after it, the preview shown is the younger one's. *)
Definition latest_preview_wins : Prop :=
  forall (r : Running) (older younger : TransferData)
         (p_old p_new : TransferPreview),
    inFlight r = [older; younger] ->
    transferPreview
      (form (run [PreviewSettles 1 (HttpOk p_new);
                  PreviewSettles 0 (HttpOk p_old)] r))
    = Some p_new.

End WithContext.

(** *** The recipient search and its debounce *)

(** The refs of the search, the module-level [debounceTimeout], and what
    the browser keeps for it: the timeouts still pending and the handle the
    next [setTimeout] returns. *)
Record Search := mkSearch {
  searchTerm : string;
  searchResults : list Account;
  isSearching : bool;
  searchError : option string;
  debounceTimeout : option nat;
  timers : list nat;
  nextTimer : nat
}.

(** The component as mounted. *)
Definition mounted : Search := mkSearch "" [] false None None [] 1.

(** [searchAccounts] up to its [await]: the state, and the term searched
    for when a request is sent. The source counts the term's UTF-16 units,
    [String.length] its bytes; the two agree on ASCII terms. *)
Definition searchAccounts (s : Search) : Search * list string :=
  if String.eqb (searchTerm s) "" || (String.length (searchTerm s) <? 2)%nat
  then (mkSearch (searchTerm s) [] (isSearching s) (searchError s)
          (debounceTimeout s) (timers s) (nextTimer s), [])
  else (mkSearch (searchTerm s) (searchResults s) true None
          (debounceTimeout s) (timers s) (nextTimer s), [searchTerm s]).

(** [searchAccounts] from the [await] on: [resp] carries
    [response.data.accounts || []], or [err.message] on the error. *)
Definition searchAccounts_resume
    (resp : list Account + option string) (s : Search) : Search :=
  match resp with
  | inl accounts =>
      mkSearch (searchTerm s) accounts false (searchError s)
        (debounceTimeout s) (timers s) (nextTimer s)
  | inr message =>
      mkSearch (searchTerm s) [] false
        (Some (or_else message "Failed to search accounts"))
        (debounceTimeout s) (timers s) (nextTimer s)
  end.

(** [debouncedSearch]: [clearTimeout] of the handle kept, if any, then a
    new [setTimeout]. *)
Definition debouncedSearch (s : Search) : Search :=
  let pending :=
    match debounceTimeout s with
    | Some h => List.filter (fun h' => negb (h' =? h)%nat) (timers s)
    | None => timers s
    end in
  mkSearch (searchTerm s) (searchResults s) (isSearching s) (searchError s)
    (Some (nextTimer s)) (pending ++ [nextTimer s]) (S (nextTimer s)).

(** The search under a schedule: the term is edited, which runs the watcher
    when the value changed, or a pending timeout fires and runs
    [searchAccounts]. *)
Inductive SearchEvent :=
| Typed (term : string)
| TimerFires (h : nat).

Definition searchStep (s : Search) (ev : SearchEvent) : Search * list string :=
  match ev with
  | Typed term =>
      if String.eqb term (searchTerm s) then (s, [])
      else (debouncedSearch
              (mkSearch term (searchResults s) (isSearching s)
                 (searchError s) (debounceTimeout s) (timers s)
                 (nextTimer s)), [])
  | TimerFires h =>
      if existsb (fun h' => (h' =? h)%nat) (timers s)
      then searchAccounts
             (mkSearch (searchTerm s) (searchResults s) (isSearching s)
                (searchError s) (debounceTimeout s)
                (List.filter (fun h' => negb (h' =? h)%nat) (timers s))
                (nextTimer s))
      else (s, [])
  end.

(** A schedule run from a state: the state reached and the searches sent,
    in order. *)
Fixpoint searchRun (evs : list SearchEvent) (s : Search)
    : Search * list string :=
  match evs with
  | [] => (s, [])
  | ev :: evs =>
      let '(s1, sent1) := searchStep s ev in
      let '(s2, sent2) := searchRun evs s1 in
      (s2, sent1 ++ sent2)
  end.

(** At most one timeout is pending, and it is the one whose handle is
    kept; handles handed out are below the next one. *)
Definition debounced (s : Search) : Prop :=
  (timers s = [] \/
   exists h, timers s = [h] /\ debounceTimeout s = Some h) /\
  Forall (fun h => (h < nextTimer s)%nat) (timers s).

End TransferModal.

(** ** router: the navigation guard *)
Module Router.
Section WithUser.
Variable User : Type.

(** What the guard reads of the target route: whether some matched record
    has [meta.requiresAuth], whether some has [meta.guestOnly], and
    [to.fullPath]. *)
Record Route := mkRoute {
  requiresAuth : bool;
  guestOnly : bool;
  fullPath : string
}.

(** The call of [next] the guard ends with. *)
Inductive Navigation :=
| Proceed                          (* next() *)
| ToLogin (redirect : option string) (* next({ name: 'login', query }) *)
| ToDashboard.                     (* next({ name: 'dashboard' }) *)

(** [router.beforeEach]. [resp] is what the GET of [validateToken] settles
    to when it is sent; [validateToken] lets nothing escape, so the guard's
    [catch] is never entered. *)
Definition beforeEach (to : Route) (now : Z)
    (resp : HttpResult (option User))
    (sb : AuthStore.AuthState User * AuthStore.Browser)
    : Navigation * (AuthStore.AuthState User * AuthStore.Browser) :=
  let isAuthenticated := AuthStore.isLoggedIn sb.1 now in
  if requiresAuth to then
    if isAuthenticated
    then (Proceed, (AuthStore.validateToken now resp sb).2)
    else (ToLogin (Some (fullPath to)), sb)
  else if guestOnly to && isAuthenticated then (ToDashboard, sb)
  else (Proceed, sb).

End WithUser.
Arguments beforeEach {User} to now resp sb.
End Router.

(** ** services/api.config.ts *)
Module ApiConfig.

(** [getAuthHeader]: the headers object built from the store's token. *)
Definition getAuthHeader (authToken : option string) : gmap string string :=
  if truthy authToken
  then {[ "Authorization" := "Bearer " +:+ default "" authToken ]}
  else ∅.

(** A value of a [TransactionFilters] field as it is at run time. *)
Inductive FilterValue :=
| FUndefined
| FNull
| FString (s : string)
| FNumber (q : Q).

(** A filters object: its own entries in [Object.entries] order. *)
Definition TransactionFilters := list (string * FilterValue).

(** [value !== undefined && value !== null && value !== '']. *)
Definition isSet (v : FilterValue) : bool :=
  match v with
  | FUndefined | FNull => false
  | FString s => negb (String.eqb s "")
  | FNumber _ => true
  end.

Section WithNumbers.
(** [Number.prototype.toString]. *)
Variable numberToString : Q -> string.

(** [value.toString()], called on set values only. *)
Definition valueToString (v : FilterValue) : string :=
  match v with
  | FString s => s
  | FNumber q => numberToString q
  | FUndefined => "undefined"
  | FNull => "null"
  end.

(** [buildFilterParams]: the pairs appended to the [URLSearchParams]. *)
Definition buildFilterParams (filters : TransactionFilters)
    : list (string * string) :=
  flat_map (fun kv => if isSet kv.2 then [(kv.1, valueToString kv.2)] else [])
    filters.

End WithNumbers.
End ApiConfig.

(** ** stores/transaction.store.ts *)
Module TransactionStore.

(** models.d.ts [Transaction], with [createAt] as the [getTime()] of the
    date it is or parses to. *)
Record Transaction := mkTransaction {
  id : Z;
  transactionReference : string;
  amount : Q;
  description : string;
  createAt : Z
}.

(** The place [sort] gives [t] among transactions already in order:
    before the first one that the comparator [dateB - dateA] does not put
    ahead of it. *)
Fixpoint place (t : Transaction) (sorted : list Transaction)
    : list Transaction :=
  match sorted with
  | [] => [t]
  | x :: rest =>
      if createAt x <=? createAt t then t :: x :: rest
      else x :: place t rest
  end.

(** [sortedTransactions]: [[...this.transactions].sort(...)]. The sort of
    an array is stable, so with this comparator the result is the one list
    in descending [createAt] order that keeps equal dates in their
    original order; it is built here by insertion. *)
Definition sortedTransactions (transactions : list Transaction)
    : list Transaction :=
  foldr place [] transactions.

(** [hasActiveFilters]. *)
Definition hasActiveFilters (currentFilters : ApiConfig.TransactionFilters)
    : bool :=
  (0 <? length currentFilters)%nat &&
  existsb (fun kv => ApiConfig.isSet kv.2) currentFilters.

End TransactionStore.

(** ** stores/account.store.ts *)
Module AccountStore.
Import TransferModal.

(** Whether an account is held in currency [c]. *)
Definition inCurrency (c : string) (account : Account) : bool :=
  String.eqb (currency account) c.

(** [accountsBycurrency]: the [reduce] into an object keyed by currency. *)
Definition accountsBycurrency (accounts : list Account)
    : gmap string (list Account) :=
  fold_left
    (fun acc account =>
       <[currency account :=
           default [] (acc !! currency account) ++ [account]]> acc)
    accounts ∅.

(** [fallbackRates[account.currency] || 1.0] of the store's own table. *)
Definition fallbackRate (c : string) : Q :=
  if String.eqb c "EUR" then 1
  else if String.eqb c "USD" then 93 # 100
  else if String.eqb c "GBP" then 116 # 100
  else if String.eqb c "CHF" then 105 # 100
  else if String.eqb c "PLN" then 24 # 100
  else 1.

(** The total the [catch] of [calculateTotalBalanceInEur] computes. *)
Definition fallbackTotal (accounts : list Account) : Q :=
  fold_left (fun total account =>
               (total + balance account * fallbackRate (currency account))%Q)
    accounts 0%Q.

(** [calculateTotalBalanceInEur], over the call of the currency service it
    awaits: the new [totalBalanceEur]. *)
Definition calculateTotalBalanceInEur {E : Type} (service : Outcome E Q)
    (accounts : list Account) : Q :=
  match accounts with
  | [] => 0
  | _ =>
      match service with
      | Returned totalBalance => totalBalance
      | Thrown _ => fallbackTotal accounts
      end
  end.

(** The argument [calculateTotalBalanceInEur] passes to the service, one
    call of the service for each account. *)
Definition toItems (accounts : list Account)
    (calls : list CurrencyService.Call) : list CurrencyService.Item :=
  map (fun ak => CurrencyService.mkItem (balance ak.1) (currency ak.1) ak.2)
    (combine accounts calls).

End AccountStore.

(** ** stores/atm.store.ts *)
Module AtmStore.
Section WithUser.
Variable User : Type.

Record LastTransaction := mkLastTransaction {
  transactionReference : option string;
  amount : option Q;
  success : bool;
  updatedBalance : option Q
}.

(** [interface AtmState]. *)
Record AtmState := mkAtmState {
  isProcessing : bool;
  error : option string;
  lastTransaction : LastTransaction
}.

(** The body of a successful response. *)
Record AtmResponse := mkAtmResponse {
  r_transactionReference : option string;
  r_success : bool;
  r_updatedBalance : option Q
}.

(** What the [catch] reads of the error: [error.response?.status],
    [error.response?.data?.errorMessage] and [error.message]. *)
Record ApiError := mkApiError {
  status : option Z;
  errorMessage : option string;
  message : option string
}.

Inductive AtmResult :=
| AtmOk (data : AtmResponse)
| AtmFailed (e : ApiError).

(** The body of the POST. *)
Record AtmRequest := mkAtmRequest {
  endpoint : string;
  q_accountNumber : string;
  q_amount : Q;
  q_description : string
}.

(** How a call ends: the boolean returned, both stores, and the request
    sent if one was. *)
Record Done := mkDone {
  result : bool;
  atm : AtmState;
  auth : AuthStore.AuthState User * AuthStore.Browser;
  sentRequest : option AtmRequest
}.

(** The common shape of [deposit] and [withdraw]: [now] is the clock at
    the login check and [resp] what the awaited POST settles to. *)
Definition transact (endpoint defaultDescription failure : string)
    (accountNumber : string) (amount : Q) (description : option string)
    (now : Z) (resp : AtmResult) (st : AtmState)
    (sb : AuthStore.AuthState User * AuthStore.Browser) : Done :=
  if negb (AuthStore.isLoggedIn sb.1 now)
  then mkDone false
         (mkAtmState (isProcessing st) (Some "Not authenticated")
            (lastTransaction st))
         sb None
  else
    let request :=
      mkAtmRequest endpoint accountNumber amount
        (or_else description defaultDescription) in
    match resp with
    | AtmOk data =>
        mkDone (r_success data)
          (mkAtmState false None
             (mkLastTransaction (r_transactionReference data) (Some amount)
                (r_success data) (r_updatedBalance data)))
          sb (Some request)
    | AtmFailed e =>
        if truthy (errorMessage e)
        then mkDone false
               (mkAtmState false (errorMessage e) (lastTransaction st))
               sb (Some request)
        else if match status e with Some c => c =? 401 | None => false end
        then mkDone false
               (mkAtmState false
                  (Some "Authentication failed. Please log in again.")
                  (lastTransaction st))
               (AuthStore.logout sb) (Some request)
        else mkDone false
               (mkAtmState false (Some (or_else (message e) failure))
                  (lastTransaction st))
               sb (Some request)
    end.

Definition deposit : string -> Q -> option string -> Z -> AtmResult ->
    AtmState -> AuthStore.AuthState User * AuthStore.Browser -> Done :=
  transact "/atm/deposit" "ATM Deposit" "Failed to process deposit".

Definition withdraw : string -> Q -> option string -> Z -> AtmResult ->
    AtmState -> AuthStore.AuthState User * AuthStore.Browser -> Done :=
  transact "/atm/withdraw" "ATM Withdrawal" "Failed to process withdrawal".

End WithUser.
Arguments deposit {User} _ _ _ _ _ _ _.
Arguments withdraw {User} _ _ _ _ _ _ _.
Arguments transact {User} _ _ _ _ _ _ _ _ _ _.
Arguments result {User} _.
Arguments atm {User} _.
Arguments auth {User} _.
Arguments sentRequest {User} _.
End AtmStore.

(** ** views/AtmView.vue, the script part *)
Module AtmView.
Import TransferModal.

Inductive TransactionType := deposit | withdraw.

(** The refs the limit logic reads; an amount field left empty compares as
    0 everywhere here. *)
Record View := mkView {
  selectedAccount : option Account;
  transactionType : TransactionType;
  amount : Q;
  accountLimits : option CurrencyService.Limits
}.

Definition maxAmount (v : View) : Q :=
  match selectedAccount v, accountLimits v with
  | Some account, Some limits =>
      match transactionType v with
      | deposit =>
          let remainingDaily :=
            (CurrencyService.dailyTransferLimit limits
             - transferUsedToday account)%Q in
          Qmin (CurrencyService.singleTransferLimit limits)
            (Qmax 0 remainingDaily)
      | withdraw =>
          let remainingDaily :=
            (CurrencyService.dailyWithdrawalLimit limits
             - withdrawalUsedToday account)%Q in
          Qmin (balance account)
            (Qmin (CurrencyService.singleWithdrawalLimit limits)
               (Qmax 0 remainingDaily))
      end
  | _, _ => 0
  end.

Definition isFormValid (v : View) : bool :=
  match selectedAccount v, accountLimits v with
  | Some account, Some limits =>
      if Qle_bool (amount v) 0 then false
      else
        match transactionType v with
        | deposit =>
            let remainingDaily :=
              (CurrencyService.dailyTransferLimit limits
               - transferUsedToday account)%Q in
            Qle_bool (amount v) (CurrencyService.singleTransferLimit limits) &&
            Qle_bool (amount v) remainingDaily &&
            Qle_bool (amount v) (maxAmount v)
        | withdraw =>
            let remainingDaily :=
              (CurrencyService.dailyWithdrawalLimit limits
               - withdrawalUsedToday account)%Q in
            Qle_bool (amount v) (balance account) &&
            Qle_bool (amount v)
              (CurrencyService.singleWithdrawalLimit limits) &&
            Qle_bool (amount v) remainingDaily &&
            Qle_bool (amount v) (maxAmount v)
        end
  | _, _ => false
  end.

Definition handleTypeChange (type : TransactionType) (v : View) : View :=
  let v := mkView (selectedAccount v) type (amount v) (accountLimits v) in
  match selectedAccount v with
  | Some _ =>
      if Qgtb (amount v) (maxAmount v)
      then mkView (selectedAccount v) type (Qmin (amount v) (maxAmount v))
             (accountLimits v)
      else v
  | None => v
  end.

End AtmView.

(** ** Concrete inputs the properties are exercised on *)
Module Fixtures.
Import AuthStore.

(** A user type with one inhabitant and a codec for it. *)
Definition stringify (_ : unit) : string := "{}".
Definition parse (s : string) : option unit :=
  if String.eqb s "{}" then Some tt else None.

Definition emptyBrowser : Browser := mkBrowser ∅ "/" [].

(** The store as created over empty storage. *)
Definition freshStore : AuthState unit * Browser :=
  (state parse emptyBrowser, emptyBrowser).

(** A login response: a one-hour token. *)
Definition loginResult : AuthResult unit :=
  mkAuthResult "tok-1" "ref-1" tt 3600.

(** The store after that login at clock 1000. *)
Definition loggedInStore : AuthState unit * Browser :=
  setSession stringify loginResult 1000 freshStore.

(** Three requests carrying the token of that login, and the 401 each got. *)
Definition bearer (tok : string) : option (gmap string string) :=
  Some {[ "Authorization" := "Bearer " +:+ tok ]}.

Definition getAccounts : HttpInterceptor.RequestConfig :=
  HttpInterceptor.mkRequest "/account/getall" (bearer "tok-1") false.
Definition getTransactions : HttpInterceptor.RequestConfig :=
  HttpInterceptor.mkRequest "/transaction/getall" (bearer "tok-1") false.
Definition postDeposit : HttpInterceptor.RequestConfig :=
  HttpInterceptor.mkRequest "/atm/deposit" (bearer "tok-1") false.

Definition unauthorized (cfg : HttpInterceptor.RequestConfig)
    : HttpInterceptor.AxiosError :=
  HttpInterceptor.mkAxiosError cfg (Some 401).

(** The same request once the handler has marked it. *)
Definition marked (cfg : HttpInterceptor.RequestConfig)
    : HttpInterceptor.RequestConfig :=
  HttpInterceptor.mkRequest (HttpInterceptor.url cfg)
    (HttpInterceptor.headers cfg) true.

(** How the gateway reads and logs out the auth store. *)
Definition tokenOf (sb : AuthState unit * Browser) : option string :=
  authToken sb.1.

(** Three 401s in a row: the first starts the refresh, two queue. *)
Definition threeUnauthorized : list (HttpInterceptor.Event (AuthState unit * Browser)) :=
  [HttpInterceptor.ResponseError (unauthorized getAccounts);
   HttpInterceptor.ResponseError (unauthorized getTransactions);
   HttpInterceptor.ResponseError (unauthorized postDeposit)].

(** A EUR account: balance 1000, 3000 per transfer, 5000 per day of which
    4500 are used. *)
Definition checking : TransferModal.Account :=
  TransferModal.mkAccount 1 "NL01INHO0000000001" "Checking" "CHECKING"
    1000 "EUR" 5000 5000 3000 500 4500 0.

Definition formatCurrency (q : Q) (currency : string) : string := currency.

(** The form as opened on [checking], with a recipient typed in. *)
Definition draft : TransferModal.Form :=
  TransferModal.mkForm (Some checking) "NL99BANK0123456789"
    TransferModal.AmountNull "" false None None false false None None.

Definition withAmount (q : Q) : TransferModal.Form :=
  TransferModal.set_amount (TransferModal.AmountOf q) draft.

(** The server's quotes for 10 and for 20. *)
Definition quote10 : TransferModal.TransferPreview :=
  TransferModal.mkTransferPreview false None "You send EUR 10".
Definition quote20 : TransferModal.TransferPreview :=
  TransferModal.mkTransferPreview false None "You send EUR 20".

(** The amount typed as 10, then as 20, before any response. *)
Definition twoEdits : TransferModal.Running :=
  TransferModal.run formatCurrency
    [TransferModal.EditAmount (TransferModal.AmountOf 10);
     TransferModal.EditAmount (TransferModal.AmountOf 20)]
    (TransferModal.mkRunning draft []).

(** An account record whose number is the empty string, selected as the
    source of a form whose destination field is blank. *)
Definition unnumbered : TransferModal.Account :=
  TransferModal.mkAccount 3 "" "Unnumbered" "CHECKING"
    1000 "EUR" 5000 5000 3000 500 0 0.

Definition blankDestination : TransferModal.Form :=
  TransferModal.mkForm (Some unnumbered) ""
    TransferModal.AmountNull "" false None None false false None None.

(** The form on [checking] with its own number typed as the destination. *)
Definition toItself : TransferModal.Form :=
  TransferModal.mkForm (Some checking) "NL01INHO0000000001"
    TransferModal.AmountNull "" false None None false false None None.

(** A second account of the same user, and the form on [checking] with
    that account's number as destination. *)
Definition savings : TransferModal.Account :=
  TransferModal.mkAccount 2 "NL01INHO0000000002" "Savings" "SAVINGS"
    250 "USD" 5000 5000 3000 500 0 0.

Definition toSavings : TransferModal.Form :=
  TransferModal.mkForm (Some checking) "NL01INHO0000000002"
    TransferModal.AmountNull "" false None None false false None None.

(** The ATM store at rest, and the ATM form on [checking] for a deposit of
    500 under the default limits. *)
Definition atmIdle : AtmStore.AtmState :=
  AtmStore.mkAtmState false None
    (AtmStore.mkLastTransaction None None false None).

Definition depositView : AtmView.View :=
  AtmView.mkView (Some checking) AtmView.deposit 500
    (Some CurrencyService.eurLimits).

(** A call of the currency service whose request gets no response. *)
Definition offline : CurrencyService.Call :=
  CurrencyService.mkCall 0 (HttpError None) 0.

End Fixtures.

(** * Properties *)

(** ** Session state *)
Section SessionProperties.
Import AuthStore.
Context {User : Type}.
Variable JSON_stringify : User -> string.
Variable JSON_parse : string -> option User.

Lemma Number_toString (z : Z) : Number (toString z) = Some z.
Proof.
  unfold Number, toString.
  rewrite NilZero.isi.
  - simpl. now rewrite DecimalZ.of_to.
  - destruct z; simpl; try discriminate;
      intros [= H]; now apply DecimalPos.Unsigned.to_uint_nonnil in H.
  - destruct z; simpl; try discriminate;
      intros [= H]; now apply DecimalPos.Unsigned.to_uint_nonnil in H.
Qed.

Lemma toString_nonempty (z : Z) : toString z <> "".
Proof.
  intros H. pose proof (Number_toString z) as N.
  rewrite H in N. discriminate.
Qed.

Lemma or_else_toString (z : Z) : or_else (Some (toString z)) "0" = toString z.
Proof.
  unfold or_else. destruct (String.eqb_spec (toString z) ""); [|done].
  now destruct (toString_nonempty z).
Qed.

(** What [setSession] leaves under each storage key. *)
Lemma setSession_storage (a : AuthResult User) (t0 : Z)
    (sb : AuthState User * Browser) :
  let b := snd (setSession JSON_stringify a t0 sb) in
  getItem "token" b = Some (ar_token _ a) /\
  getItem "refresh_token" b = Some (ar_refreshToken _ a) /\
  getItem "user" b = Some (JSON_stringify (ar_user _ a)) /\
  getItem "token_expires_at" b
    = Some (toString (t0 + ar_expiresIn _ a * 1000)).
Proof.
  unfold setSession, getItem, setItem; simpl.
  repeat split; by simplify_map_eq.
Qed.

(** A fresh store built from what [setSession] persisted holds the same
    expiry, and the same token unless that was the empty string. *)
Lemma rehydrate_setSession (a : AuthResult User) (t0 : Z)
    (sb : AuthState User * Browser) :
  let '(s, b) := setSession JSON_stringify a t0 sb in
  expiresAt (state JSON_parse b) = expiresAt s /\
  token (state JSON_parse b) = or_null (token s).
Proof.
  destruct (setSession_storage a t0 sb) as (Ht & _ & _ & He).
  destruct (setSession JSON_stringify a t0 sb) as [s b] eqn:E.
  simpl in Ht, He.
  assert (s = fst (setSession JSON_stringify a t0 sb)) as -> by now rewrite E.
  unfold state; simpl.
  rewrite Ht, He, or_else_toString, Number_toString. done.
Qed.

Lemma isLoggedIn_or_null (s s' : AuthState User) (now : Z) :
  expiresAt s' = expiresAt s -> token s' = or_null (token s) ->
  isLoggedIn s' now = isLoggedIn s now.
Proof.
  unfold isLoggedIn. intros -> ->.
  unfold or_null. destruct (truthy (token s)) eqn:T; simpl.
  - now rewrite T.
  - done.
Qed.

(** Rehydration reproduces [isLoggedIn] for every session [setSession]
    can be given, at every time it is asked. *)
Lemma isLoggedIn_round_trip (a : AuthResult User) (t0 now : Z)
    (sb : AuthState User * Browser) :
  isLoggedIn (state JSON_parse (snd (setSession JSON_stringify a t0 sb))) now
  = isLoggedIn (fst (setSession JSON_stringify a t0 sb)) now.
Proof.
  pose proof (rehydrate_setSession a t0 sb) as H.
  destruct (setSession JSON_stringify a t0 sb) as [s b]; simpl.
  destruct H. now apply isLoggedIn_or_null.
Qed.

(** Once a session is logged in at some time, [isLoggedIn] is the
    comparison of its expiry with the clock. *)
Lemma isLoggedIn_iff_of_logged_in (s : AuthState User) (t0 now : Z) :
  isLoggedIn s t0 = true ->
  isLoggedIn s now = true <->
  token s <> None /\ exists e, expiresAt s = Some e /\ now < e.
Proof.
  unfold isLoggedIn, truthy, truthy_num.
  destruct (token s) as [t|]; [|simpl; discriminate].
  destruct (expiresAt s) as [e|]; [|rewrite orb_true_r; discriminate].
  destruct (String.eqb t ""); simpl; [discriminate|].
  destruct (e =? 0); simpl; [discriminate|].
  intros _. rewrite Z.gtb_gt. split.
  - intros H. split; [done|]. exists e. split; [done|lia].
  - intros [_ (e' & E & H)]. injection E as <-. lia.
Qed.

(** [isLoggedIn] in general: a non-empty token and a non-zero expiry later
    than the clock. *)
Lemma isLoggedIn_iff (s : AuthState User) (now : Z) :
  isLoggedIn s now = true <->
  truthy (token s) = true /\
  exists e, expiresAt s = Some e /\ e <> 0 /\ now < e.
Proof.
  unfold isLoggedIn, truthy_num.
  destruct (truthy (token s)); simpl; [|split; [discriminate|now intros []]].
  destruct (expiresAt s) as [e|]; simpl.
  - destruct (Z.eqb_spec e 0); simpl.
    + split; [discriminate|]. intros [_ (e' & [= <-] & ? & _)]. done.
    + rewrite Z.gtb_gt. split.
      * intros H. split; [done|]. exists e. repeat split; [done|lia].
      * intros [_ (e' & [= <-] & _ & H)]. lia.
  - split; [discriminate|]. intros [_ (e' & [=] & _)].
Qed.


Lemma refreshToken_over_none {E : Type}
    (validate : AuthState User * Browser ->
                Outcome E (option User) * (AuthState User * Browser))
    (sb : AuthState User * Browser) :
  truthy (refresh_token sb.1) = false ->
  refreshToken_over validate sb = (false, sb).
Proof. unfold refreshToken_over. now intros ->. Qed.

Lemma refreshToken_over_some {E : Type}
    (validate : AuthState User * Browser ->
                Outcome E (option User) * (AuthState User * Browser))
    (sb sb' : AuthState User * Browser) (r : Outcome E (option User)) :
  truthy (refresh_token sb.1) = true ->
  validate sb = (r, sb') ->
  refreshToken_over validate sb =
    (match r with Returned (Some _) => true | _ => false end, sb').
Proof.
  unfold refreshToken_over. intros -> ->. simpl.
  destruct r as [[u|]|e]; reflexivity.
Qed.


End SessionProperties.



(** ** The refresh-and-replay gateway *)
Section GatewayProperties.
Import HttpInterceptor.
Context {Store : Type}.
Variable authToken : Store -> option string.
Variable logout : Store -> Store.


(** The handler either finishes without touching the gateway, or queues its
    request behind a refresh in flight, or starts the refresh when none is. *)
Lemma onResponseError_cases (error : AxiosError) (g : Gateway) :
  (exists s, onResponseError error g = (Finished s, g)) \/
  (isRefreshing g = true /\
   response_status error = Some 401 /\ _retry (config error) = false /\
   onResponseError error g =
     (Queued (mkSubscriber (config error)),
      mkGateway true (refreshSubscribers g ++ [mkSubscriber (config error)]))) \/
  (isRefreshing g = false /\
   response_status error = Some 401 /\ _retry (config error) = false /\
   exists error',
     onResponseError error g =
       (AwaitRefresh error', mkGateway true (refreshSubscribers g))).
Proof.
  unfold onResponseError, subscribeTokenRefresh.
  destruct (response_status error) as [st|]; [|left; eauto].
  destruct (Z.eqb_spec st 401) as [->|]; simpl; [|left; eauto].
  destruct (_retry (config error)); simpl; [left; eauto|].
  destruct (isRefreshing g) eqn:R; [right; left|right; right]; eauto 10.
Qed.

(** What resuming does to the gateway and to the queued callbacks, whatever
    the refresh settled to. *)
Lemma afterRefresh_drains (error : AxiosError)
    (refreshed : Outcome JsError bool) (g : Gateway) (s : Store) :
  waiters (afterRefresh authToken logout error refreshed g s) =
    forEach_call (deliveredToken authToken refreshed s)
      (refreshSubscribers g) /\
  gateway (afterRefresh authToken logout error refreshed g s) = mkGateway false [].
Proof. destruct refreshed as [[|]|e]; split; reflexivity. Qed.

Lemma map_called_forEach (tok : string) (subs : list Subscriber) :
  map called (forEach_call tok subs) = subs.
Proof.
  unfold forEach_call. rewrite map_map. simpl. apply map_id.
Qed.

Lemma coherent_boot (s : Store) : coherent (boot s).
Proof. repeat split; simpl; auto. Qed.

Lemma coherent_step (sys : System Store) (ev : Event Store) :
  coherent sys -> coherent (step authToken logout sys ev).
Proof.
  intros (Hlen & Hflag & Hq & Hreg). destruct ev as [error|refreshed after].
  - destruct (onResponseError_cases error (gw sys))
      as [[s E]|[(R & _ & _ & E)|(R & _ & _ & error' & E)]];
      unfold HttpInterceptor.step; rewrite E; simpl.
    + done.
    + repeat split; simpl; try done.
      * now rewrite <- Hflag.
      * now rewrite Hreg, app_assoc.
    + assert (S0 : suspended sys = []).
      { rewrite R in Hflag. destruct (suspended sys); [done|discriminate]. }
      rewrite S0. repeat split; simpl; try done.
  - unfold HttpInterceptor.step.
    destruct (suspended sys) as [|error rest] eqn:S0;
      [unfold coherent; rewrite S0; done|].
    destruct (afterRefresh_drains error refreshed (gw sys) after) as [W G].
    assert (rest = []) as ->
      by (destruct rest; [done|simpl in Hlen; lia]).
    repeat split; simpl; rewrite ?G; simpl; try done; [lia|].
    rewrite W, map_app, map_called_forEach, app_nil_r. exact Hreg.
Qed.

Lemma coherent_run (evs : list (Event Store)) (sys : System Store) :
  coherent sys -> coherent (run authToken logout evs sys).
Proof.
  revert sys. induction evs as [|ev evs IH]; intros sys H; simpl; [done|].
  apply IH. now apply coherent_step.
Qed.

Lemma step_response_error (sys : System Store) (error : AxiosError) :
  let sys' := step authToken logout sys (ResponseError error) in
  (exists more, refreshSubscribers (gw sys') =
                refreshSubscribers (gw sys) ++ more) /\
  (isRefreshing (gw sys) = true ->
     refreshCalls sys' = refreshCalls sys /\
     suspended sys' = suspended sys /\
     (response_status error = Some 401 -> _retry (config error) = false ->
      refreshSubscribers (gw sys') =
        refreshSubscribers (gw sys) ++ [mkSubscriber (config error)])).
Proof.
  unfold step.
  destruct (onResponseError_cases error (gw sys))
    as [[s E]|[(R & H4 & Hr & E)|(R & H4 & Hr & error' & E)]];
    rewrite E; simpl.
  - split; [exists []; now rewrite app_nil_r|].
    intros _. repeat split; try done.
    intros H4 Hr. unfold onResponseError in E. rewrite H4, Hr in E.
    simpl in E. destruct (isRefreshing (gw sys)); discriminate.
  - split; [now eexists|]. done.
  - split; [exists []; now rewrite app_nil_r|]. rewrite R. discriminate.
Qed.

Lemma step_refresh_settled (sys : System Store)
    (refreshed : Outcome JsError bool) (after : Store) :
  coherent sys -> suspended sys <> [] ->
  let sys' := step authToken logout sys (RefreshSettled refreshed after) in
  invoked sys' =
    invoked sys ++ forEach_call (deliveredToken authToken refreshed after)
                     (refreshSubscribers (gw sys)) /\
  refreshSubscribers (gw sys') = [] /\
  isRefreshing (gw sys') = false /\
  suspended sys' = [] /\
  refreshCalls sys' = refreshCalls sys.
Proof.
  intros (Hlen & _) Hs. unfold step.
  destruct (suspended sys) as [|error rest]; [done|].
  destruct rest; [|simpl in Hlen; lia].
  destruct (afterRefresh_drains error refreshed (gw sys) after) as [W G].
  simpl. rewrite W, G. done.
Qed.

(** C1. Along every schedule of error responses and refresh settlements,
    from the state at module load: at most one handler is awaiting a
    refresh, and exactly then the flag is set; an error response never
    resets the queue, and while the flag is set it starts no refresh and, if
    it is a 401 of an unmarked request, appends its callback; a settlement
    calls the queued callbacks once each, in registration order, all with
    the same token (the store's on success, the empty string otherwise),
    empties the queue and clears the flag; so the registrations are always
    the calls made so far followed by the queue, and the queue is empty
    whenever no refresh is in flight. *)
Theorem single_refresh_fifo_drain (s0 : Store) (evs : list (Event Store)) :
  let sys := run authToken logout evs (boot s0) in
  (length (suspended sys) <= 1)%nat /\
  (isRefreshing (gw sys) = true <-> suspended sys <> []) /\
  (isRefreshing (gw sys) = false -> refreshSubscribers (gw sys) = []) /\
  registered sys = map called (invoked sys) ++ refreshSubscribers (gw sys) /\
  (forall error,
     let sys' := step authToken logout sys (ResponseError error) in
     (exists more, refreshSubscribers (gw sys') =
                   refreshSubscribers (gw sys) ++ more) /\
     (isRefreshing (gw sys) = true ->
        refreshCalls sys' = refreshCalls sys /\
        suspended sys' = suspended sys /\
        (response_status error = Some 401 -> _retry (config error) = false ->
         refreshSubscribers (gw sys') =
           refreshSubscribers (gw sys) ++ [mkSubscriber (config error)]))) /\
  (forall refreshed after,
     suspended sys <> [] ->
     let sys' := step authToken logout sys (RefreshSettled refreshed after) in
     invoked sys' =
       invoked sys ++ forEach_call (deliveredToken authToken refreshed after)
                        (refreshSubscribers (gw sys)) /\
     refreshSubscribers (gw sys') = [] /\
     isRefreshing (gw sys') = false /\
     suspended sys' = [] /\
     refreshCalls sys' = refreshCalls sys).
Proof.
  intros sys.
  assert (C : coherent sys) by apply coherent_run, coherent_boot.
  pose proof C as (Hlen & Hflag & Hq & Hreg).
  split; [exact Hlen|]. split.
  { rewrite Hflag. destruct (suspended sys); simpl; split; done. }
  split; [exact Hq|]. split; [exact Hreg|]. split.
  - intros error. apply step_response_error.
  - intros refreshed after Hs. now apply step_refresh_settled.
Qed.

(** C2. A 401 for a request already marked [_retry] finishes the handler at
    once with the error itself as rejection, changing nothing: no refresh is
    called and nothing is queued. The handler queues or starts a refresh
    only for a 401 whose request is not marked. *)
Theorem retried_401_is_terminal (error : AxiosError) (g : Gateway) :
  response_status error = Some 401 ->
  _retry (config error) = true ->
  onResponseError error g = (Finished (Reject (AxiosErr error)), g) /\
  (forall sys : System Store,
     gw sys = g -> step authToken logout sys (ResponseError error) = sys) /\
  (forall (e : AxiosError) (g0 : Gateway),
     match (onResponseError e g0).1 with
     | Finished _ => True
     | _ => response_status e = Some 401 /\ _retry (config e) = false
     end).
Proof.
  intros H4 Hr.
  assert (E : onResponseError error g = (Finished (Reject (AxiosErr error)), g)).
  { unfold onResponseError. now rewrite H4, Hr. }
  split; [exact E|]. split.
  - intros sys <-. unfold step. rewrite E. now destruct sys.
  - intros e g0.
    destruct (onResponseError_cases e g0)
      as [[s E']|[(_ & ? & ? & E')|(_ & ? & ? & e' & E')]];
      rewrite E'; done.
Qed.

(** How the handler resumes when the refresh did not succeed: [failure] is
    [None] for [refreshToken()] returning false and the error it threw
    otherwise. *)
Lemma afterRefresh_failure (error : AxiosError) (failure : option JsError)
    (g : Gateway) (s : Store) :
  afterRefresh authToken logout error
    (match failure with None => Returned false | Some e => Thrown e end) g s
  = mkResumed
      (Reject (match failure with None => AxiosErr error | Some e => e end))
      (map (fun cb => mkInvocation cb "" (Replay (originalRequest cb)))
         (refreshSubscribers g))
      (mkGateway false [])
      (logout s).
Proof. destruct failure; reflexivity. Qed.

End GatewayProperties.

(** C3. When the awaited refresh returns false or throws, the handler calls
    every queued callback with the empty string, which binds each waiter's
    promise to a replay of its request with the headers it already had;
    the queue is emptied, the flag cleared, the store logged out (token
    dropped, location set to the login page) and the handler's own promise
    rejected. *)
Theorem refresh_failure_replays_waiters {User : Type}
    (error : HttpInterceptor.AxiosError)
    (failure : option HttpInterceptor.JsError)
    (g : HttpInterceptor.Gateway)
    (sb : AuthStore.AuthState User * AuthStore.Browser) :
  let r := HttpInterceptor.afterRefresh
             (fun sb => AuthStore.authToken sb.1) AuthStore.logout error
             (match failure with
              | None => Returned false
              | Some e => Thrown e
              end) g sb in
  HttpInterceptor.waiters r =
    map (fun cb => HttpInterceptor.mkInvocation cb ""
                     (HttpInterceptor.Replay (HttpInterceptor.originalRequest cb)))
      (HttpInterceptor.refreshSubscribers g) /\
  HttpInterceptor.refreshSubscribers (HttpInterceptor.gateway r) = [] /\
  HttpInterceptor.isRefreshing (HttpInterceptor.gateway r) = false /\
  HttpInterceptor.store r = AuthStore.logout sb /\
  AuthStore.token (HttpInterceptor.store r).1 = None /\
  AuthStore.href (HttpInterceptor.store r).2 = "/login" /\
  HttpInterceptor.original r =
    HttpInterceptor.Reject
      (match failure with
       | None => HttpInterceptor.AxiosErr error
       | Some e => e
       end).
Proof.
  intros r. subst r. rewrite afterRefresh_failure. simpl.
  destruct sb as [s b]. repeat split.
Qed.

(** One request queued behind a refresh that then returns false: the queued
    request is sent again as it was. *)
Example refresh_failure_example :
  HttpInterceptor.waiters
    (HttpInterceptor.afterRefresh Fixtures.tokenOf AuthStore.logout
       (Fixtures.unauthorized (Fixtures.marked Fixtures.getAccounts))
       (Returned false)
       (HttpInterceptor.mkGateway true
          [HttpInterceptor.mkSubscriber Fixtures.getTransactions])
       Fixtures.loggedInStore)
  = [HttpInterceptor.mkInvocation
       (HttpInterceptor.mkSubscriber Fixtures.getTransactions) ""
       (HttpInterceptor.Replay Fixtures.getTransactions)].
Proof. reflexivity. Qed.

Lemma single_refresh_fifo_drain_witness :
  let sys := HttpInterceptor.run Fixtures.tokenOf AuthStore.logout
               Fixtures.threeUnauthorized
               (HttpInterceptor.boot Fixtures.loggedInStore) in
  let sys' := HttpInterceptor.step Fixtures.tokenOf AuthStore.logout sys
                (HttpInterceptor.RefreshSettled (Returned true)
                   Fixtures.loggedInStore) in
  HttpInterceptor.refreshCalls sys = 1%nat /\
  HttpInterceptor.registered sys =
    [HttpInterceptor.mkSubscriber Fixtures.getTransactions;
     HttpInterceptor.mkSubscriber Fixtures.postDeposit] /\
  map HttpInterceptor.called (HttpInterceptor.invoked sys') =
    HttpInterceptor.registered sys /\
  map HttpInterceptor.argument (HttpInterceptor.invoked sys') =
    ["tok-1"; "tok-1"] /\
  HttpInterceptor.refreshSubscribers (HttpInterceptor.gw sys') = [].
Proof.
  intros sys sys'.
  pose proof (single_refresh_fifo_drain Fixtures.tokenOf AuthStore.logout
                Fixtures.loggedInStore Fixtures.threeUnauthorized)
    as (_ & _ & _ & _ & _ & Settle).
  destruct (Settle (Returned true) Fixtures.loggedInStore)
    as (Hinv & Hq & _); [vm_compute; discriminate|].
  fold sys in Hinv, Hq. fold sys' in Hinv, Hq.
  split; [vm_compute; reflexivity|]. split; [vm_compute; reflexivity|].
  split; [rewrite Hinv; vm_compute; reflexivity|].
  split; [rewrite Hinv; vm_compute; reflexivity|exact Hq].
Defined.

Lemma retried_401_is_terminal_witness :
  HttpInterceptor.onResponseError
    (Fixtures.unauthorized (Fixtures.marked Fixtures.getAccounts))
    HttpInterceptor.initial
  = (HttpInterceptor.Finished
       (HttpInterceptor.Reject
          (HttpInterceptor.AxiosErr
             (Fixtures.unauthorized (Fixtures.marked Fixtures.getAccounts)))),
     HttpInterceptor.initial).
Proof.
  apply (retried_401_is_terminal (Store := unit) (fun _ => None) (fun s => s)
           (Fixtures.unauthorized (Fixtures.marked Fixtures.getAccounts))
           HttpInterceptor.initial); reflexivity.
Defined.

(** ** The rate cache *)
Section RateCacheProperties.
Import CurrencyService.

(** A lookup for EUR answers 1 and touches nothing. *)
Lemma eur_is_one (now now' : Z) (resp : HttpResult Q) (m : Cache) :
  getExchangeRateToEur "EUR" now resp now' m = mkLookup 1 m [] /\
  getExchangeRateFromEur "EUR" now resp now' m = mkLookup 1 m [].
Proof. split; reflexivity. Qed.

Ltac not_eur H :=
  match type of H with
  | ?c <> "EUR" =>
      let E := fresh "E" in
      destruct (String.eqb_spec c "EUR") as [E|_]; [now destruct H|]
  end.

(** Each lookup is decided by the entry under its key alone. *)
Lemma toEur_hit (c : string) (now now' : Z) (resp : HttpResult Q) (m : Cache)
    (e : CacheEntry) :
  c <> "EUR" -> m !! (c +:+ "_EUR") = Some e ->
  now - timestamp e < CACHE_DURATION ->
  getExchangeRateToEur c now resp now' m = mkLookup (rate e) m [].
Proof.
  intros Hc He Hlt. unfold getExchangeRateToEur. not_eur Hc.
  rewrite He. now destruct (Z.ltb_spec (now - timestamp e) CACHE_DURATION); [|lia].
Qed.

Lemma toEur_stale (c : string) (now now' : Z) (resp : HttpResult Q) (m : Cache)
    (e : CacheEntry) :
  c <> "EUR" -> m !! (c +:+ "_EUR") = Some e ->
  CACHE_DURATION <= now - timestamp e ->
  getExchangeRateToEur c now resp now' m =
    match resp with
    | HttpOk r =>
        mkLookup r (<[c +:+ "_EUR" := mkCacheEntry r now']> m)
          [mkRateRequest c "EUR" 1]
    | HttpError _ => mkLookup (fallbackToEur c) m [mkRateRequest c "EUR" 1]
    end.
Proof.
  intros Hc He Hge. unfold getExchangeRateToEur. not_eur Hc.
  rewrite He. now destruct (Z.ltb_spec (now - timestamp e) CACHE_DURATION); [lia|].
Qed.

Lemma fromEur_hit (c : string) (now now' : Z) (resp : HttpResult Q)
    (m : Cache) (e : CacheEntry) :
  c <> "EUR" -> m !! ("EUR_" +:+ c) = Some e ->
  now - timestamp e < CACHE_DURATION ->
  getExchangeRateFromEur c now resp now' m = mkLookup (rate e) m [].
Proof.
  intros Hc He Hlt. unfold getExchangeRateFromEur. not_eur Hc.
  rewrite He. now destruct (Z.ltb_spec (now - timestamp e) CACHE_DURATION); [|lia].
Qed.

Lemma fromEur_stale (c : string) (now now' : Z) (resp : HttpResult Q)
    (m : Cache) (e : CacheEntry) :
  c <> "EUR" -> m !! ("EUR_" +:+ c) = Some e ->
  CACHE_DURATION <= now - timestamp e ->
  getExchangeRateFromEur c now resp now' m =
    match resp with
    | HttpOk r =>
        mkLookup r (<["EUR_" +:+ c := mkCacheEntry r now']> m)
          [mkRateRequest "EUR" c 1]
    | HttpError _ => mkLookup (fallbackFromEur c) m [mkRateRequest "EUR" c 1]
    end.
Proof.
  intros Hc He Hge. unfold getExchangeRateFromEur. not_eur Hc.
  rewrite He. now destruct (Z.ltb_spec (now - timestamp e) CACHE_DURATION); [lia|].
Qed.

(** A lookup that sent a request and got a rate has cached it under its key
    with the clock read at that moment. *)
Lemma toEur_fetched (c : string) (now now' : Z) (r : Q) (m : Cache) :
  sent (getExchangeRateToEur c now (HttpOk r) now' m) <> [] ->
  c <> "EUR" /\
  cache (getExchangeRateToEur c now (HttpOk r) now' m) !! (c +:+ "_EUR")
    = Some (mkCacheEntry r now').
Proof.
  unfold getExchangeRateToEur.
  destruct (String.eqb_spec c "EUR") as [->|Hc]; [done|].
  intros H. split; [done|].
  destruct (m !! (c +:+ "_EUR")) as [e|]; simpl in *.
  - destruct (now - timestamp e <? CACHE_DURATION); [done|].
    simpl. apply lookup_insert_eq.
  - apply lookup_insert_eq.
Qed.

Lemma fromEur_fetched (c : string) (now now' : Z) (r : Q) (m : Cache) :
  sent (getExchangeRateFromEur c now (HttpOk r) now' m) <> [] ->
  c <> "EUR" /\
  cache (getExchangeRateFromEur c now (HttpOk r) now' m) !! ("EUR_" +:+ c)
    = Some (mkCacheEntry r now').
Proof.
  unfold getExchangeRateFromEur.
  destruct (String.eqb_spec c "EUR") as [->|Hc]; [done|].
  intros H. split; [done|].
  destruct (m !! ("EUR_" +:+ c)) as [e|]; simpl in *.
  - destruct (now - timestamp e <? CACHE_DURATION); [done|].
    simpl. apply lookup_insert_eq.
  - apply lookup_insert_eq.
Qed.


End RateCacheProperties.


(** ** The transfer form *)
Section TransferProperties.
Import TransferModal.
Variable formatCurrency : Q -> string -> string.

Lemma Qgtb_spec (a b : Q) : reflect (b < a)%Q (Qgtb a b).
Proof.
  unfold Qgtb. destruct (Qle_bool a b) eqn:E; constructor.
  - apply Qle_bool_iff in E. now apply Qle_not_lt.
  - apply Qnot_le_lt. intros H. apply Qle_bool_iff in H. congruence.
Qed.

Lemma Qle_bool_spec (a b : Q) : reflect (a <= b)%Q (Qle_bool a b).
Proof.
  destruct (Qle_bool a b) eqn:E; constructor.
  - now apply Qle_bool_iff.
  - intros H. apply Qle_bool_iff in H. congruence.
Qed.

Lemma Qeq_bool_spec (a b : Q) : reflect (a == b)%Q (Qeq_bool a b).
Proof.
  destruct (Qeq_bool a b) eqn:E; constructor.
  - now apply Qeq_bool_iff.
  - intros H. apply Qeq_bool_iff in H. congruence.
Qed.

(** [validateAmount] on a non-zero amount with a source account selected,
    as the cascade of its four tests. *)
Lemma validateAmount_cascade (f : Form) (from : Account) (a : Q) :
  fromAccount f = Some from -> amount f = AmountOf a -> ~ (a == 0)%Q ->
  amountError (validateAmount formatCurrency f) =
    if Qle_bool a 0 then Some "Amount must be greater than zero"
    else if Qgtb a (balance from) then Some "Insufficient funds"
    else if Qgtb a (singleTransferLimit from) then
      Some ("Exceeds single transfer limit of " +:+
            formatCurrency (singleTransferLimit from) (currency from))
    else if Qgtb (transferUsedToday from + a) (dailyTransferLimit from) then
      Some ("Exceeds daily transfer limit of " +:+
            formatCurrency (dailyTransferLimit from) (currency from))
    else None.
Proof.
  intros Hf Ha Hz. unfold validateAmount. simpl. rewrite Hf, Ha. simpl.
  destruct (Qeq_bool_spec a 0); [done|]. simpl.
  destruct (Qle_bool a 0); [done|].
  destruct (Qgtb a (balance from)); [done|].
  destruct (Qgtb a (singleTransferLimit from)); [done|].
  destruct (Qgtb (transferUsedToday from + a) (dailyTransferLimit from)); done.
Qed.



(** A blank amount, a zero amount or a missing source account: the error is
    cleared and nothing else changes. *)
Lemma validateAmount_silent (f : Form) :
  amount f = AmountNull \/ amount f = AmountEmpty \/
  (exists q, amount f = AmountOf q /\ (q == 0)%Q) \/ fromAccount f = None ->
  validateAmount formatCurrency f = set_amountError None f.
Proof.
  unfold validateAmount. simpl.
  intros [-> | [-> | [(q & -> & Hq) | ->]]]; try done.
  - destruct (fromAccount f); [|done]. simpl.
    now destruct (Qeq_bool_spec q 0).
  - now destruct (amount f).
Qed.

(** A valid form holds a positive number as amount and no amount error. *)
Lemma isFormValid_amount (f : Form) :
  isFormValid f = true ->
  exists q, amount f = AmountOf q /\ (0 < q)%Q /\
            truthy (amountError f) = false /\ fromAccount f <> None.
Proof.
  unfold isFormValid. intros H.
  repeat (apply andb_prop in H; destruct H as [H ?]).
  destruct (amount f) as [| |q]; try discriminate.
  exists q. split; [done|]. split.
  - simpl in *. now destruct (Qgtb_spec q 0).
  - split; [now destruct (truthy (amountError f))|].
    destruct (fromAccount f); [done|]. discriminate.
Qed.

(** C10. With the amount blank, null or zero, or with no source account,
    [validateAmount] only clears the amount error; "Amount must be greater
    than zero" is set exactly for a negative amount with a source account
    selected; and in the silent cases the form is not valid, so
    [submitTransfer] sends nothing: a valid form has a number above zero as
    amount and no amount error. *)
Theorem validateAmount_silent_yet_blocked (f : Form) :
  (amount f = AmountNull \/ amount f = AmountEmpty \/
   (exists q, amount f = AmountOf q /\ (q == 0)%Q) \/ fromAccount f = None ->
   validateAmount formatCurrency f = set_amountError None f /\
   isFormValid (validateAmount formatCurrency f) = false /\
   submitTransfer (validateAmount formatCurrency f)
     = (validateAmount formatCurrency f, None)) /\
  (amountError (validateAmount formatCurrency f)
     = Some "Amount must be greater than zero" <->
   exists q from,
     amount f = AmountOf q /\ fromAccount f = Some from /\ (q < 0)%Q) /\
  (isFormValid f = true ->
   exists q, amount f = AmountOf q /\ (0 < q)%Q /\
             truthy (amountError f) = false).
Proof.
  split; [|split].
  - intros H. rewrite (validateAmount_silent f H).
    assert (V : isFormValid (set_amountError None f) = false).
    { destruct (isFormValid (set_amountError None f)) eqn:E; [|done].
      apply isFormValid_amount in E as (q & Ha & Hq & _ & Hf). simpl in *.
      destruct H as [H|[H|[(q' & H & Hz)|H]]]; try congruence.
      rewrite Ha in H. injection H as <-. rewrite Hz in Hq. lra. }
    split; [done|]. split; [done|]. unfold submitTransfer. now rewrite V.
  - split.
    + intros H.
      destruct (amount f) as [| |q] eqn:Ha; try (unfold validateAmount in H;
        simpl in H; rewrite Ha in H; discriminate).
      destruct (fromAccount f) as [from|] eqn:Hf; [|unfold validateAmount in H;
        simpl in H; rewrite Ha, Hf in H; discriminate].
      destruct (Qeq_bool_spec q 0) as [Hz|Hz].
      { rewrite validateAmount_silent in H; [discriminate|].
        right. right. left. now exists q. }
      rewrite (validateAmount_cascade f from q Hf Ha Hz) in H.
      exists q, from. split; [done|]. split; [done|].
      destruct (Qle_bool_spec q 0) as [H0|H0].
      * destruct (Qlt_le_dec q 0) as [|H1]; [done|].
        destruct Hz. now apply Qle_antisym.
      * destruct (Qgtb q (balance from)); [discriminate|].
        destruct (Qgtb q (singleTransferLimit from)); [discriminate|].
        destruct (Qgtb _ (dailyTransferLimit from)); discriminate.
    + intros (q & from & Ha & Hf & Hq).
      assert (Hz : ~ (q == 0)%Q) by (intros E; rewrite E in Hq; lra).
      rewrite (validateAmount_cascade f from q Hf Ha Hz).
      destruct (Qle_bool_spec q 0) as [|H0]; [done|]. destruct H0. lra.
  - intros H. apply isFormValid_amount in H as (q & ? & ? & ? & _).
    now exists q.
Qed.

(** Whatever request a response answers, it is written to the preview. *)
Lemma getTransferPreview_resume_overwrites
    (resp : HttpResult TransferPreview) (f : Form) :
  transferPreview (getTransferPreview_resume resp f) = payload resp /\
  isLoadingPreview (getTransferPreview_resume resp f) = false.
Proof. now destruct resp. Qed.

(** An edit of the amount leaves every request in flight where it is, and
    on a form it makes valid it sends one more. *)
Lemma edit_keeps_requests (r : Running) (a : Amount) :
  (exists more,
     inFlight (step formatCurrency r (EditAmount a)) = inFlight r ++ more) /\
  (isFormValid (set_amount a (form r)) = true ->
   inFlight (step formatCurrency r (EditAmount a)) =
     inFlight r ++ [transferData (set_amount a (form r))]).
Proof.
  unfold step, onPreviewInputs, getTransferPreview.
  destruct (isFormValid (set_amount a (form r))); simpl.
  - split; [now eexists|done].
  - split; [exists []; now rewrite app_nil_r|discriminate].
Qed.


End TransferProperties.


(** A blank destination on a source account whose number is the empty
    string: [validateToAccount] returns with the error cleared. *)
Example blank_destination_passes :
  TransferModal.validateToAccount Fixtures.blankDestination
  = (Fixtures.blankDestination, None).
Proof. reflexivity. Qed.



Lemma validateAmount_silent_yet_blocked_witness :
  TransferModal.validateAmount Fixtures.formatCurrency (Fixtures.withAmount 0)
    = TransferModal.set_amountError None (Fixtures.withAmount 0) /\
  TransferModal.amountError
    (TransferModal.validateAmount Fixtures.formatCurrency
       (Fixtures.withAmount (-5)))
    = Some "Amount must be greater than zero".
Proof.
  split.
  - apply (validateAmount_silent_yet_blocked Fixtures.formatCurrency
             (Fixtures.withAmount 0)).
    right. right. left. exists 0%Q. split; reflexivity.
  - apply (validateAmount_silent_yet_blocked Fixtures.formatCurrency
             (Fixtures.withAmount (-5))).
    exists (-5)%Q, Fixtures.checking. repeat split.
Defined.

(** The amount typed as 10 and then as 20 sends two preview requests; the
    quote for 20 arrives first and the quote for 10 after it: the form ends
    with amount 20 and the quote for 10. *)
Lemma stale_quote_shown :
  let r := TransferModal.run Fixtures.formatCurrency
             [TransferModal.PreviewSettles 1 (HttpOk Fixtures.quote20);
              TransferModal.PreviewSettles 0 (HttpOk Fixtures.quote10)]
             Fixtures.twoEdits in
  length (TransferModal.inFlight Fixtures.twoEdits) = 2%nat /\
  TransferModal.amount (TransferModal.form r) = TransferModal.AmountOf 20 /\
  TransferModal.transferPreview (TransferModal.form r)
    = Some Fixtures.quote10 /\
  TransferModal.inFlight r = [].
Proof. vm_compute. repeat split. Qed.



(** * Further properties of the code *)

(** ** Session state: login, logout, validation *)
Section SessionLifecycle.
Import AuthStore.
Context {User : Type}.
Variable JSON_stringify : User -> string.
Variable JSON_parse : string -> option User.


Lemma logout_storage (sb : AuthState User * Browser) (k : string) :
  k = "token" \/ k = "refresh_token" \/ k = "user" \/ k = "token_expires_at" ->
  getItem k (logout sb).2 = None.
Proof.
  destruct sb as [s b]. unfold logout, getItem, removeItem. simpl.
  intros [-> | [-> | [-> | ->]]]; destruct (truthy (token s)); simpl;
    by simplify_map_eq.
Qed.

(** X2. After [logout] nobody is logged in, whatever the clock: neither
    the store itself nor a store created later from the storage; the four
    storage keys are gone and the location is the login page; and a second
    [logout] changes nothing and posts nothing more. *)
Theorem logout_clears (sb : AuthState User * Browser) (now : Z) :
  isLoggedIn (logout sb).1 now = false /\
  isLoggedIn (state JSON_parse (logout sb).2) now = false /\
  (forall k, k = "token" \/ k = "refresh_token" \/ k = "user" \/
             k = "token_expires_at" -> getItem k (logout sb).2 = None) /\
  href (logout sb).2 = "/login" /\
  logout (logout sb) = logout sb.
Proof.
  split; [now destruct sb|]. split.
  { unfold isLoggedIn, state. simpl.
    rewrite (logout_storage sb "token") by auto. reflexivity. }
  split; [apply logout_storage|]. split; [now destruct sb|].
  destruct sb as [s b]. unfold logout, removeItem. simpl.
  f_equal. f_equal.
  apply map_eq. intros k.
  destruct (decide (k = "token_expires_at")) as [->|];
    [by simplify_map_eq|].
  destruct (decide (k = "user")) as [->|]; [by simplify_map_eq|].
  destruct (decide (k = "refresh_token")) as [->|]; [by simplify_map_eq|].
  destruct (decide (k = "token")) as [->|]; by simplify_map_eq.
Qed.

(** X3. A store created from storage restores what [setSession] persisted:
    token, refresh token, user and expiry, provided both tokens are
    non-empty and the user's JSON parses back and is none of the strings
    [safeJsonParse] treats as absent; [isAuthenticated] is not restored, it
    is false in every new store. *)
Theorem rehydrate_restores (a : AuthResult User) (t0 : Z)
    (sb : AuthState User * Browser) :
  ar_token _ a <> "" -> ar_refreshToken _ a <> "" ->
  JSON_parse (JSON_stringify (ar_user _ a)) = Some (ar_user _ a) ->
  JSON_stringify (ar_user _ a) <> "" ->
  JSON_stringify (ar_user _ a) <> "null" ->
  JSON_stringify (ar_user _ a) <> "undefined" ->
  let s := (setSession JSON_stringify a t0 sb).1 in
  state JSON_parse (setSession JSON_stringify a t0 sb).2
  = mkAuthState (token s) (refresh_token s) (user s) (expiresAt s) false.
Proof.
  intros Ht Hr Hp H1 H2 H3 s.
  destruct (setSession_storage JSON_stringify a t0 sb) as (Et & Er & Eu & Ee).
  unfold state. rewrite Et, Er, Eu, Ee, or_else_toString, Number_toString.
  unfold or_null, truthy, safeJsonParse.
  destruct (String.eqb_spec (ar_token _ a) ""); [done|].
  destruct (String.eqb_spec (ar_refreshToken _ a) ""); [done|].
  destruct (String.eqb_spec (JSON_stringify (ar_user _ a)) ""); [done|].
  destruct (String.eqb_spec (JSON_stringify (ar_user _ a)) "null"); [done|].
  destruct (String.eqb_spec (JSON_stringify (ar_user _ a)) "undefined");
    [done|].
  simpl. now rewrite Hp.
Qed.

(** X4. A store created from storage that lacks the token or the expiry is
    not logged in at any clock value: the absent expiry is read as
    [Number('0')], which is falsy. *)
Theorem rehydrate_incomplete (b : Browser) (now : Z) :
  getItem "token" b = None \/ getItem "token_expires_at" b = None ->
  isLoggedIn (state JSON_parse b) now = false.
Proof.
  unfold isLoggedIn, state. simpl. intros [-> | ->]; [reflexivity|].
  simpl. now rewrite orb_true_r.
Qed.




End SessionLifecycle.


Lemma rehydrate_restores_witness :
  AuthStore.token
    (AuthStore.state Fixtures.parse Fixtures.loggedInStore.2) = Some "tok-1" /\
  AuthStore.isAuthenticated
    (AuthStore.state Fixtures.parse Fixtures.loggedInStore.2) = false.
Proof.
  pose proof (rehydrate_restores Fixtures.stringify Fixtures.parse
                Fixtures.loginResult 1000 Fixtures.freshStore) as H.
  cbv zeta in H. unfold Fixtures.loggedInStore.
  rewrite H by (discriminate || reflexivity). split; reflexivity.
Defined.

Lemma rehydrate_incomplete_witness :
  AuthStore.isLoggedIn (AuthStore.state Fixtures.parse Fixtures.emptyBrowser)
    5 = false.
Proof.
  apply (rehydrate_incomplete Fixtures.parse Fixtures.emptyBrowser 5).
  left. reflexivity.
Defined.

(** ** The gateway: refresh calls, replays, and the store behind it *)
Section GatewayReplays.
Import HttpInterceptor.
Context {Store : Type}.
Variable authToken : Store -> option string.
Variable logout : Store -> Store.

(** Every refresh called has settled or is the one still awaited. *)
Lemma refreshCalls_accounted (evs : list (Event Store)) (sys : System Store)
    (n : nat) :
  refreshCalls sys = (n + length (suspended sys))%nat ->
  exists n',
    refreshCalls (run authToken logout evs sys)
      = (n' + length (suspended (run authToken logout evs sys)))%nat /\
    (n' <= n + length (List.filter is_settlement evs))%nat.
Proof.
  revert sys n. induction evs as [|ev evs IH]; intros sys n H; simpl.
  - exists n. split; [done|lia].
  - destruct ev as [error|refreshed after].
    + destruct (IH (step authToken logout sys (ResponseError error)) n)
        as (n' & E & L); [|exists n'; split; [exact E|simpl; lia]].
      unfold step.
      destruct (onResponseError error (gw sys)) as [[s|cb|e'] g]; simpl;
        rewrite ?length_app; simpl; lia.
    + destruct (suspended sys) as [|error rest] eqn:S0.
      * assert (St : step authToken logout sys (RefreshSettled refreshed after)
                     = sys) by (unfold step; now rewrite S0).
        rewrite St.
        destruct (IH sys n) as (n' & E & L); [now rewrite S0|].
        exists n'. split; [exact E|simpl; lia].
      * assert (St : suspended (step authToken logout sys
                                  (RefreshSettled refreshed after)) = rest /\
                     refreshCalls (step authToken logout sys
                                     (RefreshSettled refreshed after))
                     = refreshCalls sys)
          by (unfold step; now rewrite S0).
        destruct St as [St1 St2].
        destruct (IH (step authToken logout sys
                        (RefreshSettled refreshed after)) (S n))
          as (n' & E & L); [rewrite St1, St2; simpl in H; lia|].
        exists n'. split; [exact E|simpl; lia].
Qed.

(** X8. Along every schedule from module load, [authStore.refreshToken()]
    has been called at most once more than refreshes have settled: a new
    refresh starts only after the previous one is over. *)
Theorem refresh_calls_bounded (s0 : Store) (evs : list (Event Store)) :
  (refreshCalls (run authToken logout evs (boot s0))
   <= S (length (List.filter is_settlement evs)))%nat.
Proof.
  destruct (refreshCalls_accounted evs (boot s0) 0 eq_refl) as (n' & E & L).
  pose proof (coherent_run authToken logout evs (boot s0) (coherent_boot s0))
    as (Hlen & _).
  lia.
Qed.

Lemma setAuthorization_reauthorized (tok : string) (cfg : RequestConfig) :
  reauthorized tok cfg (setAuthorization tok cfg).
Proof.
  unfold reauthorized, setAuthorization.
  destruct (headers cfg) as [h|] eqn:H; simpl; [|now rewrite H].
  repeat split. eexists. split; [reflexivity|]. split.
  - apply lookup_insert_eq.
  - intros k Hk. now apply lookup_insert_ne.
Qed.

(** X9. When the refresh succeeds and the store holds a non-empty token:
    the store is left alone, the queue is emptied and the flag cleared; the
    original request and every queued one are sent again to the same URL
    with [Bearer token] under Authorization and all their other headers
    unchanged; and each queued request is replayed exactly as the request
    interceptor would send it afresh. *)
Theorem refresh_success_reauthorizes (error : AxiosError) (g : Gateway)
    (s : Store) (tok : string) :
  authToken s = Some tok -> tok <> "" ->
  let r := afterRefresh authToken logout error (Returned true) g s in
  store r = s /\ gateway r = mkGateway false [] /\
  (exists cfg, original r = Replay cfg /\ reauthorized tok (config error) cfg) /\
  map called (waiters r) = refreshSubscribers g /\
  Forall (fun i =>
            argument i = tok /\
            bound i = Replay (requestInterceptor authToken s
                                (originalRequest (called i))) /\
            exists cfg, bound i = Replay cfg /\
                        reauthorized tok (originalRequest (called i)) cfg)
         (waiters r).
Proof.
  intros Ht Hne r. subst r. unfold afterRefresh, onTokenRefreshed.
  rewrite Ht. simpl.
  assert (E : (if String.eqb tok "" then "" else tok) = tok)
    by now destruct (String.eqb_spec tok "").
  assert (F : String.eqb tok "" = false)
    by now destruct (String.eqb_spec tok "").
  rewrite E. split; [done|]. split; [done|]. split.
  { eexists. split; [reflexivity|]. apply setAuthorization_reauthorized. }
  split; [apply map_called_forEach|].
  unfold forEach_call. apply Forall_map, Forall_forall. intros cb _. simpl.
  unfold callback, requestInterceptor. rewrite Ht. simpl. rewrite F. simpl.
  split; [done|]. split; [done|].
  eexists. split; [reflexivity|]. apply setAuthorization_reauthorized.
Qed.

(** X10. When the refresh is reported successful while the store holds no
    token, the two replays differ: the queued requests go out again with
    the headers they had, but the original request, if it has headers, is
    sent with the bare value [Bearer ] under Authorization. *)
Theorem refresh_success_without_token (error : AxiosError) (g : Gateway)
    (s : Store) :
  truthy (authToken s) = false ->
  let r := afterRefresh authToken logout error (Returned true) g s in
  waiters r =
    map (fun cb => mkInvocation cb "" (Replay (originalRequest cb)))
      (refreshSubscribers g) /\
  (exists cfg, original r = Replay cfg /\ reauthorized "" (config error) cfg).
Proof.
  intros Ht r. subst r. unfold afterRefresh, onTokenRefreshed.
  assert (E : or_else (authToken s) "" = "").
  { unfold truthy, or_else in *. destruct (authToken s) as [t|]; [|done].
    destruct (String.eqb t ""); [done|discriminate]. }
  rewrite E. simpl. split; [reflexivity|].
  eexists. split; [reflexivity|]. apply setAuthorization_reauthorized.
Qed.

End GatewayReplays.

Lemma refresh_success_reauthorizes_witness :
  map HttpInterceptor.argument
    (HttpInterceptor.waiters
       (HttpInterceptor.afterRefresh Fixtures.tokenOf AuthStore.logout
          (Fixtures.unauthorized (Fixtures.marked Fixtures.getAccounts))
          (Returned true)
          (HttpInterceptor.mkGateway true
             [HttpInterceptor.mkSubscriber Fixtures.getTransactions])
          Fixtures.loggedInStore))
  = ["tok-1"].
Proof.
  destruct (refresh_success_reauthorizes Fixtures.tokenOf AuthStore.logout
              (Fixtures.unauthorized (Fixtures.marked Fixtures.getAccounts))
              (HttpInterceptor.mkGateway true
                 [HttpInterceptor.mkSubscriber Fixtures.getTransactions])
              Fixtures.loggedInStore "tok-1")
    as (_ & _ & _ & _ & F); [reflexivity|discriminate|].
  revert F.
  generalize (HttpInterceptor.waiters
       (HttpInterceptor.afterRefresh Fixtures.tokenOf AuthStore.logout
          (Fixtures.unauthorized (Fixtures.marked Fixtures.getAccounts))
          (Returned true)
          (HttpInterceptor.mkGateway true
             [HttpInterceptor.mkSubscriber Fixtures.getTransactions])
          Fixtures.loggedInStore)) at 1 as ws.
  vm_compute. reflexivity.
Defined.

Lemma refresh_success_without_token_witness :
  exists cfg,
    HttpInterceptor.original
      (HttpInterceptor.afterRefresh Fixtures.tokenOf AuthStore.logout
         (Fixtures.unauthorized (Fixtures.marked Fixtures.getAccounts))
         (Returned true) HttpInterceptor.initial Fixtures.freshStore)
    = HttpInterceptor.Replay cfg /\
    HttpInterceptor.reauthorized ""
      (Fixtures.marked Fixtures.getAccounts) cfg.
Proof.
  apply (refresh_success_without_token Fixtures.tokenOf AuthStore.logout
           (Fixtures.unauthorized (Fixtures.marked Fixtures.getAccounts))
           HttpInterceptor.initial Fixtures.freshStore).
  reflexivity.
Defined.

(** ** The gateway over the auth store *)
Section GatewayOverAuthStore.
Import HttpInterceptor.
Context {User : Type}.



End GatewayOverAuthStore.



(** ** The currency service beyond a single lookup *)
Section CurrencyServiceProperties.
Import CurrencyService.


(** A lookup leaves the cache as it was or puts one entry under its key. *)
Lemma toEur_cache_cases (c : string) (now now' : Z) (resp : HttpResult Q)
    (m : Cache) :
  cache (getExchangeRateToEur c now resp now' m) = m \/
  exists e, cache (getExchangeRateToEur c now resp now' m)
            = <[c +:+ "_EUR" := e]> m.
Proof.
  unfold getExchangeRateToEur.
  destruct (String.eqb c "EUR"); [now left|].
  destruct (m !! (c +:+ "_EUR")) as [e|];
    [destruct (now - timestamp e <? CACHE_DURATION); [now left|]|];
    destruct resp; simpl; eauto.
Qed.

Lemma fromEur_cache_cases (c : string) (now now' : Z) (resp : HttpResult Q)
    (m : Cache) :
  cache (getExchangeRateFromEur c now resp now' m) = m \/
  exists e, cache (getExchangeRateFromEur c now resp now' m)
            = <["EUR_" +:+ c := e]> m.
Proof.
  unfold getExchangeRateFromEur.
  destruct (String.eqb c "EUR"); [now left|].
  destruct (m !! ("EUR_" +:+ c)) as [e|];
    [destruct (now - timestamp e <? CACHE_DURATION); [now left|]|];
    destruct resp; simpl; eauto.
Qed.

(** X14. A lookup touches no cache entry but its own: every other key
    reads as before, whatever the lookup did, and no lookup removes an
    entry. *)
Theorem lookup_frames_cache (c : string) (now now' : Z)
    (resp : HttpResult Q) (m : Cache) (k : string) :
  (k <> c +:+ "_EUR" ->
   cache (getExchangeRateToEur c now resp now' m) !! k = m !! k) /\
  (k <> "EUR_" +:+ c ->
   cache (getExchangeRateFromEur c now resp now' m) !! k = m !! k) /\
  (is_Some (m !! k) ->
   is_Some (cache (getExchangeRateToEur c now resp now' m) !! k) /\
   is_Some (cache (getExchangeRateFromEur c now resp now' m) !! k)).
Proof.
  assert (Ne : forall (key : string) (e : CacheEntry),
            k <> key -> <[key := e]> m !! k = m !! k).
  { intros key e Hk. apply lookup_insert_ne. intros Ek. apply Hk.
    now rewrite Ek. }
  assert (Keep : forall (key : string) (e : CacheEntry),
            is_Some (m !! k) -> is_Some (<[key := e]> m !! k)).
  { intros key e Hs. apply lookup_insert_is_Some.
    destruct (decide (key = k)); [now left|now right]. }
  destruct (toEur_cache_cases c now now' resp m) as [-> | [e ->]];
    destruct (fromEur_cache_cases c now now' resp m) as [-> | [e' ->]];
    repeat split; auto.
Qed.

(** X15. After [clearCache] every lookup of a currency other than EUR goes
    to the network, whatever had been cached and however recently. *)
Theorem clearCache_forces_fetch (c : string) (now now' : Z)
    (resp : HttpResult Q) (m : Cache) :
  c <> "EUR" ->
  sent (getExchangeRateToEur c now resp now' (clearCache m))
    = [mkRateRequest c "EUR" 1] /\
  sent (getExchangeRateFromEur c now resp now' (clearCache m))
    = [mkRateRequest "EUR" c 1].
Proof.
  intros Hc. unfold getExchangeRateToEur, getExchangeRateFromEur, clearCache.
  destruct (String.eqb_spec c "EUR"); [done|].
  destruct resp; split; reflexivity.
Qed.

Lemma convertToEur_sent (i : Item) (m : Cache) :
  sent (convertToEur (itemAmount i) (itemCurrency i) (checkedAt (itemCall i))
          (settlesTo (itemCall i)) (storedAt (itemCall i)) m)
  = if needsFetch m i then [mkRateRequest (itemCurrency i) "EUR" 1] else [].
Proof.
  unfold convertToEur, needsFetch, getExchangeRateToEur.
  destruct (String.eqb (itemCurrency i) "EUR"); [done|]. simpl.
  destruct (m !! (itemCurrency i +:+ "_EUR")) as [e|];
    [destruct (checkedAt (itemCall i) - timestamp e <? CACHE_DURATION);
       [done|]|];
    now destruct (settlesTo (itemCall i)).
Qed.

(** X16. A batch conversion sends one request for every amount whose
    currency is not EUR and has no fresh cache entry, in the order of the
    amounts: two amounts in the same such currency cost two requests. It
    converts as many amounts as it is given, and a batch in EUR only sends
    nothing, writes nothing and totals to the plain sum. *)
Theorem batch_requests (amounts : list Item) (m : Cache) :
  requests (convertMultipleToEur amounts m)
    = map (fun i => mkRateRequest (itemCurrency i) "EUR" 1)
        (List.filter (needsFetch m) amounts) /\
  length (conversions (convertMultipleToEur amounts m)) = length amounts /\
  (Forall (fun i => itemCurrency i = "EUR") amounts ->
   getTotalBalanceInEur amounts m
   = (fold_left Qplus (map itemAmount amounts) 0%Q,
      mkBatch (map itemAmount amounts) [] [])).
Proof.
  split; [|split].
  - unfold convertMultipleToEur. simpl.
    induction amounts as [|i l IH]; [done|]. simpl.
    rewrite IH, convertToEur_sent. now destruct (needsFetch m i).
  - unfold convertMultipleToEur. simpl. now rewrite length_map.
  - intros H. unfold getTotalBalanceInEur, convertMultipleToEur. simpl.
    assert (E : forall i, itemCurrency i = "EUR" ->
              convertToEur (itemAmount i) (itemCurrency i)
                (checkedAt (itemCall i)) (settlesTo (itemCall i))
                (storedAt (itemCall i)) m = mkLookup (itemAmount i) m []
              /\ writtenToEur (itemCurrency i) (itemCall i) m = []).
    { intros i ->. split; reflexivity. }
    induction H as [|i l Hi Hl IH]; [done|]. simpl.
    destruct (E i Hi) as [-> ->]. simpl.
    injection IH as I1 I2 I3 I4. now rewrite I2, I3, I4.
Qed.



End CurrencyServiceProperties.


Lemma clearCache_forces_fetch_witness :
  CurrencyService.sent
    (CurrencyService.getExchangeRateToEur "USD" 1001 (HttpOk (93 # 100)) 1002
       (CurrencyService.clearCache
          {[ "USD_EUR" := CurrencyService.mkCacheEntry (92 # 100) 1000 ]}))
  = [CurrencyService.mkRateRequest "USD" "EUR" 1].
Proof.
  apply (clearCache_forces_fetch "USD" 1001 1002 (HttpOk (93 # 100))).
  discriminate.
Defined.

(** ** Transaction filters and the transaction list *)
Section TransactionProperties.
Import ApiConfig TransactionStore.
Variable numberToString : Q -> string.

Lemma buildFilterParams_keys (fs : TransactionFilters) :
  map fst (buildFilterParams numberToString fs)
  = map fst (List.filter (fun kv => isSet kv.2) fs).
Proof.
  induction fs as [|[k v] fs IH]; [done|].
  unfold buildFilterParams in *. simpl.
  destruct (isSet v); simpl; now rewrite IH.
Qed.

(** X19. The store reports active filters exactly when [buildFilterParams]
    puts at least one parameter in the query. The parameters are the
    filters whose value is set, under their keys and in their order; a
    string filter is sent as it is unless empty, and a number filter is
    always sent, zero included. *)
Theorem active_filters_are_sent (fs : TransactionFilters) :
  (hasActiveFilters fs = true <-> buildFilterParams numberToString fs <> []) /\
  map fst (buildFilterParams numberToString fs)
    = map fst (List.filter (fun kv => isSet kv.2) fs) /\
  (forall k q, In (k, FNumber q) fs ->
     In (k, numberToString q) (buildFilterParams numberToString fs)) /\
  (forall k s, In (k, FString s) fs -> s <> "" ->
     In (k, s) (buildFilterParams numberToString fs)) /\
  (forall k x, In (k, x) (buildFilterParams numberToString fs) ->
     exists v, In (k, v) fs /\ isSet v = true /\
               valueToString numberToString v = x).
Proof.
  split; [|split; [apply buildFilterParams_keys|split; [|split]]].
  - unfold hasActiveFilters, buildFilterParams.
    induction fs as [|[k v] fs IH]; [simpl; split; [discriminate|done]|].
    simpl. destruct (isSet v) eqn:V; simpl; [split; [discriminate|done]|].
    destruct fs as [|kv fs']; [simpl; split; [discriminate|done]|].
    exact IH.
  - intros k q H. unfold buildFilterParams. apply in_flat_map.
    exists (k, FNumber q). split; [exact H|]. simpl. now left.
  - intros k s H Hs. unfold buildFilterParams. apply in_flat_map.
    exists (k, FString s). split; [exact H|]. simpl.
    destruct (String.eqb_spec s ""); [done|]. now left.
  - intros k x. unfold buildFilterParams. rewrite in_flat_map.
    intros [[k' v] [Hin Hv]]. simpl in Hv.
    destruct (isSet v) eqn:V; [|done].
    destruct Hv as [[= -> <-]|[]]. now exists v.
Qed.

Lemma place_perm (t : Transaction) (l : list Transaction) :
  Permutation (t :: l) (place t l).
Proof.
  induction l as [|x l IH]; simpl; [done|].
  destruct (createAt x <=? createAt t); [done|].
  rewrite perm_swap. now constructor.
Qed.

Lemma place_head (t : Transaction) (l : list Transaction) (d : Z) :
  createAt t <= d -> Forall (fun x => createAt x <= d) l ->
  Forall (fun x => createAt x <= d) (place t l).
Proof.
  intros Ht Hl. induction Hl as [|x l Hx Hl IH]; simpl.
  - now repeat constructor.
  - destruct (createAt x <=? createAt t); repeat constructor; auto.
Qed.

Lemma place_sorted (t : Transaction) (l : list Transaction) :
  StronglySorted (fun a b => createAt b <= createAt a) l ->
  StronglySorted (fun a b => createAt b <= createAt a) (place t l).
Proof.
  induction 1 as [|x l Hl IH Hx]; simpl.
  - repeat constructor.
  - destruct (Z.leb_spec (createAt x) (createAt t)).
    + constructor; [now constructor|].
      constructor; [done|].
      eapply Forall_impl; [exact Hx|]. simpl. intros; lia.
    + constructor; [exact IH|]. apply place_head; [lia|exact Hx].
Qed.

Lemma place_keeps_order (t : Transaction) (l : list Transaction) (d : Z) :
  List.filter (fun x => createAt x =? d) (place t l)
  = List.filter (fun x => createAt x =? d) (t :: l).
Proof.
  induction l as [|x l IH]; simpl; [done|].
  destruct (Z.leb_spec (createAt x) (createAt t)); [done|].
  simpl in *. rewrite IH.
  destruct (Z.eqb_spec (createAt t) d); [|done].
  destruct (Z.eqb_spec (createAt x) d); [lia|done].
Qed.

(** X20. [sortedTransactions] lists the same transactions, newest first,
    and transactions of one date in the order the store holds them. *)
Theorem sortedTransactions_newest_first (ts : list Transaction) :
  Permutation ts (sortedTransactions ts) /\
  StronglySorted (fun a b => createAt b <= createAt a)
    (sortedTransactions ts) /\
  (forall d, List.filter (fun x => createAt x =? d) (sortedTransactions ts)
             = List.filter (fun x => createAt x =? d) ts).
Proof.
  unfold sortedTransactions.
  induction ts as [|t ts (P & S & F)]; simpl; [repeat split; constructor|].
  split; [|split].
  - rewrite <- place_perm. now constructor.
  - now apply place_sorted.
  - intros d. rewrite place_keeps_order. simpl. now rewrite F.
Qed.

End TransactionProperties.

(** ** The account store *)
Section AccountStoreProperties.
Import TransferModal AccountStore.

Lemma group_step (accounts : list Account) (acc : gmap string (list Account))
    (c : string) :
  fold_left
    (fun acc account =>
       <[currency account :=
           default [] (acc !! currency account) ++ [account]]> acc)
    accounts acc !! c
  = match acc !! c, List.filter (inCurrency c) accounts with
    | None, [] => None
    | found, more => Some (default [] found ++ more)
    end.
Proof.
  revert acc. induction accounts as [|a l IH]; intros acc; simpl.
  - destruct (acc !! c); simpl;
      [f_equal; symmetry; apply app_nil_r|reflexivity].
  - rewrite IH. destruct (inCurrency c a) eqn:I.
    + apply String.eqb_eq in I. rewrite I, lookup_insert_eq. simpl.
      rewrite <- app_assoc. simpl. now destruct (acc !! c).
    + apply String.eqb_neq in I. now rewrite lookup_insert_ne.
Qed.


Lemma rates_agree (c : string) :
  c <> "EUR" -> CurrencyService.fallbackToEur c = fallbackRate c.
Proof.
  intros H. unfold CurrencyService.fallbackToEur, fallbackRate.
  now destruct (String.eqb_spec c "EUR").
Qed.

Lemma offline_conversion (a : Account) (k : CurrencyService.Call) :
  (exists st, CurrencyService.settlesTo k = HttpError st) ->
  (CurrencyService.returned
     (CurrencyService.convertToEur (balance a) (currency a)
        (CurrencyService.checkedAt k) (CurrencyService.settlesTo k)
        (CurrencyService.storedAt k) ∅)
   == balance a * fallbackRate (currency a))%Q.
Proof.
  intros [st E]. unfold CurrencyService.convertToEur.
  destruct (String.eqb_spec (currency a) "EUR") as [C|C].
  - simpl. unfold fallbackRate. rewrite C. simpl. ring.
  - unfold CurrencyService.getExchangeRateToEur.
    destruct (String.eqb_spec (currency a) "EUR"); [done|].
    rewrite E. simpl. now rewrite rates_agree.
Qed.

Lemma offline_fold (accounts : list Account)
    (calls : list CurrencyService.Call) (x y : Q) :
  length calls = length accounts ->
  Forall (fun k => exists st, CurrencyService.settlesTo k = HttpError st)
    calls ->
  (x == y)%Q ->
  (fold_left Qplus
     (CurrencyService.conversions
        (CurrencyService.convertMultipleToEur (toItems accounts calls) ∅)) x
   == fold_left (fun total account =>
                   (total + balance account * fallbackRate (currency account))%Q)
        accounts y)%Q.
Proof.
  revert calls x y. induction accounts as [|a l IH]; intros calls x y Hl Hf E.
  - destruct calls; [simpl; exact E|discriminate].
  - destruct calls as [|k ks]; [discriminate|].
    apply Forall_cons in Hf as [Hk Hks]. simpl.
    apply (IH ks); [simpl in Hl; lia|exact Hks|].
    rewrite (offline_conversion a k Hk), E. reflexivity.
Qed.

(** X22. With nothing cached and every rate request failing, the total the
    currency service computes is the total of the store's own fallback
    branch: the two copies of the fallback table agree on every currency,
    EUR and unlisted ones counting 1:1. *)
Theorem offline_total_agrees (accounts : list Account)
    (calls : list CurrencyService.Call) :
  length calls = length accounts ->
  Forall (fun k => exists st, CurrencyService.settlesTo k = HttpError st)
    calls ->
  ((CurrencyService.getTotalBalanceInEur (toItems accounts calls) ∅).1
   == fallbackTotal accounts)%Q /\
  (forall E (e : E),
     accounts <> [] ->
     calculateTotalBalanceInEur (Thrown e) accounts = fallbackTotal accounts).
Proof.
  intros Hl Hf. split.
  - unfold CurrencyService.getTotalBalanceInEur, fallbackTotal. simpl.
    now apply offline_fold.
  - intros E e H. now destruct accounts.
Qed.

End AccountStoreProperties.

(** ** The ATM store and the ATM form *)
Section AtmProperties.
Context {User : Type}.

Lemma or_else_truthy (m : option string) (failure : string) :
  failure <> "" -> truthy (Some (or_else m failure)) = true.
Proof.
  intros Hf. destruct m as [m|]; simpl.
  - destruct (String.eqb_spec m "") as [->|N]; simpl.
    + now destruct (String.eqb_spec failure "").
    + now destruct (String.eqb_spec m "").
  - now destruct (String.eqb_spec failure "").
Qed.

(** The outcome of the shape [deposit] and [withdraw] share. *)
Lemma transact_outcome (endpoint defaultDescription failure : string)
    (accountNumber : string) (amount : Q) (description : option string)
    (now : Z) (resp : AtmStore.AtmResult) (st : AtmStore.AtmState)
    (sb : AuthStore.AuthState User * AuthStore.Browser) :
  failure <> "" ->
  let d := AtmStore.transact endpoint defaultDescription failure
             accountNumber amount description now resp st sb in
  (AuthStore.isLoggedIn sb.1 now = false ->
     AtmStore.sentRequest d = None /\ AtmStore.result d = false /\
     AtmStore.error (AtmStore.atm d) = Some "Not authenticated" /\
     AtmStore.auth d = sb) /\
  (AuthStore.isLoggedIn sb.1 now = true ->
     AtmStore.sentRequest d <> None /\
     AtmStore.isProcessing (AtmStore.atm d) = false /\
     (AtmStore.result d = true <->
        exists data, resp = AtmStore.AtmOk data /\
                     AtmStore.r_success data = true) /\
     (forall data, resp = AtmStore.AtmOk data ->
        AtmStore.error (AtmStore.atm d) = None /\ AtmStore.auth d = sb) /\
     (forall e, resp = AtmStore.AtmFailed e ->
        truthy (AtmStore.error (AtmStore.atm d)) = true /\
        AtmStore.lastTransaction (AtmStore.atm d)
          = AtmStore.lastTransaction st /\
        (truthy (AtmStore.errorMessage e) = true ->
           AtmStore.error (AtmStore.atm d) = AtmStore.errorMessage e /\
           AtmStore.auth d = sb) /\
        (truthy (AtmStore.errorMessage e) = false ->
           AtmStore.auth d =
             if match AtmStore.status e with
                | Some c => c =? 401
                | None => false
                end
             then AuthStore.logout sb else sb))).
Proof.
  intros Hf d. subst d. unfold AtmStore.transact. split.
  - intros ->. simpl. done.
  - intros ->. simpl. destruct resp as [data|e].
    + simpl. split; [discriminate|]. split; [done|]. split.
      { split; [intros H; now exists data|].
        intros (d' & E & H). now injection E as <-. }
      split; [intros d' _; done|]. intros e E. discriminate.
    + destruct (truthy (AtmStore.errorMessage e)) eqn:M.
      * simpl. split; [discriminate|]. split; [done|]. split.
        { split; [discriminate|]. intros (d' & E & _). discriminate. }
        split; [intros d' E; discriminate|].
        intros e' E. injection E as <-.
        split; [exact M|]. split; [done|].
        split; [done|rewrite M; discriminate].
      * destruct (match AtmStore.status e with
                  | Some c => c =? 401
                  | None => false
                  end) eqn:S; simpl.
        -- split; [discriminate|]. split; [done|]. split.
           { split; [discriminate|]. intros (d' & E & _). discriminate. }
           split; [intros d' E; discriminate|].
           intros e' E. injection E as <-. rewrite M, S.
           split; [done|]. split; [done|]. split; [discriminate|done].
        -- split; [discriminate|]. split; [done|]. split.
           { split; [discriminate|]. intros (d' & E & _). discriminate. }
           split; [intros d' E; discriminate|].
           intros e' E. injection E as <-. rewrite M, S.
           split; [now apply or_else_truthy|].
           split; [done|]. split; [discriminate|done].
Qed.


End AtmProperties.

(** ** The ATM form *)
Section AtmViewProperties.
Import TransferModal AtmView.

(** X24. With an account selected and its limits loaded, the ATM form is
    valid exactly for the amounts above zero and up to [maxAmount]: the
    single limit and what is left of the daily limit (for a withdrawal also
    the balance), so no amount is valid once the daily limit is used up. *)
Theorem atm_form_valid_iff (v : View) (account : Account)
    (limits : CurrencyService.Limits) :
  selectedAccount v = Some account -> accountLimits v = Some limits ->
  (isFormValid v = true <-> (0 < amount v)%Q /\ (amount v <= maxAmount v)%Q) /\
  (match transactionType v with
   | deposit =>
       (CurrencyService.dailyTransferLimit limits
        <= transferUsedToday account)%Q
   | withdraw =>
       (CurrencyService.dailyWithdrawalLimit limits
        <= withdrawalUsedToday account)%Q
   end -> isFormValid v = false).
Proof.
  intros Ha Hl.
  assert (I : isFormValid v = true <->
              (0 < amount v)%Q /\ (amount v <= maxAmount v)%Q).
  { unfold isFormValid, maxAmount. rewrite Ha, Hl.
    destruct (Qle_bool_spec (amount v) 0) as [H0|H0].
    - split; [discriminate|]. intros [H _]. lra.
    - apply Qnot_le_lt in H0.
      destruct (transactionType v);
        rewrite ?andb_true_iff, ?Qle_bool_iff, ?Q.min_glb_iff,
          ?Q.max_le_iff; split.
      + intros [[H1 H2] _]. repeat split; auto.
      + intros (_ & H1 & [H2|H2]); [lra|]. repeat split; auto.
      + intros [[[H1 H2] H3] _]. repeat split; auto.
      + intros (_ & H1 & H2 & [H3|H3]); [lra|]. repeat split; auto. }
  split; [exact I|].
  intros Hused. destruct (isFormValid v) eqn:V; [|done].
  destruct (proj1 I eq_refl) as [Hpos Hmax]. unfold maxAmount in Hmax.
  rewrite Ha, Hl in Hmax.
  destruct (transactionType v);
    rewrite ?Q.min_glb_iff, ?Q.max_le_iff in Hmax;
    [destruct Hmax as (_ & [H|H])|destruct Hmax as (_ & _ & [H|H])]; lra.
Qed.

(** X25. Switching between deposit and withdrawal with an account selected
    leaves an amount that fits under the new maximum as it is and cuts a
    larger one down to that maximum; without an account the amount is not
    touched. *)
Theorem handleTypeChange_clamps (type : TransactionType) (v : View) :
  let v' := handleTypeChange type v in
  transactionType v' = type /\
  selectedAccount v' = selectedAccount v /\
  accountLimits v' = accountLimits v /\
  (selectedAccount v = None -> amount v' = amount v) /\
  (selectedAccount v <> None ->
     (amount v' <= maxAmount v')%Q /\
     ((amount v <= maxAmount v')%Q -> amount v' = amount v) /\
     ((maxAmount v' < amount v)%Q -> amount v' = maxAmount v')).
Proof.
  unfold handleTypeChange. simpl.
  destruct (selectedAccount v) as [a|] eqn:Ha; [|repeat split; done].
  set (w := mkView (Some a) type (amount v) (accountLimits v)).
  assert (M : forall q, maxAmount (mkView (Some a) type q (accountLimits v))
                        = maxAmount w) by reflexivity.
  destruct (Qgtb_spec (amount v) (maxAmount w)) as [G|G]; simpl.
  - rewrite M. split; [done|]. split; [done|]. split; [done|].
    split; [done|]. intros _. split; [apply Q.le_min_r|]. split.
    + intros Hfit. lra.
    + intros _. unfold Qmin, GenericMinMax.gmin.
      destruct (amount v ?= maxAmount w)%Q eqn:C; try done.
      * apply Qeq_alt in C. lra.
      * apply Qlt_alt in C. lra.
  - apply Qnot_lt_le in G. split; [done|]. split; [done|]. split; [done|].
    split; [done|]. intros _. split; [exact G|]. split; [done|].
    intros Hover. change (maxAmount w < amount v)%Q in Hover. lra.
Qed.

End AtmViewProperties.

(** ** The transfer form: destination lookup, exchange flag, search *)
Section TransferFormProperties.
Import TransferModal.
Variable formatCurrency : Q -> string -> string.
Variable availableFromAccounts : list Account.
Variable byEmployee : bool.

Lemma find_of_existsb {A : Type} (p : A -> bool) (l : list A) :
  existsb p l = true -> exists x, find p l = Some x.
Proof.
  induction l as [|a l IH]; simpl; [discriminate|].
  destruct (p a); [now exists a|exact IH].
Qed.

Lemma isFormValid_marked (f : Form) (msg : string) :
  starts_with_check msg = true ->
  isFormValid (set_toAccountError (Some msg) f)
  = isFormValid (set_toAccountError None f).
Proof.
  intros H. unfold isFormValid. simpl. rewrite H.
  now rewrite orb_true_r.
Qed.

(** X26. What the destination lookup does to the form, once
    [validateToAccount] has sent it. A lookup that fails, with a 404 or
    with anything else, leaves no error on the destination. A lookup that
    succeeds leaves an error only when the destination is another of the
    user's own accounts: in employee mode the error that makes the form
    invalid, otherwise a note beginning with the check mark, which leaves
    the validity of the form as it was. *)
Theorem destination_lookup_outcome (f : Form) (url : string) :
  (validateToAccount f).2 = Some url ->
  let f0 := (validateToAccount f).1 in
  let own := isOwnAccountTransfer availableFromAccounts f in
  (forall status,
     toAccountError
       (validateToAccount_resume availableFromAccounts byEmployee
          (HttpError status) f0) = None) /\
  (own = false ->
     validateToAccount_resume availableFromAccounts byEmployee (HttpOk tt) f0
     = f0) /\
  (own = true -> byEmployee = true ->
     let f1 := validateToAccount_resume availableFromAccounts byEmployee
                 (HttpOk tt) f0 in
     toAccountError f1 = Some "Can't transfer to your own account" /\
     isFormValid f1 = false) /\
  (own = true -> byEmployee = false ->
     let f1 := validateToAccount_resume availableFromAccounts byEmployee
                 (HttpOk tt) f0 in
     (exists msg, toAccountError f1 = Some msg /\
                  starts_with_check msg = true) /\
     isFormValid f1 = isFormValid f0).
Proof.
  intros Hsent f0 own.
  assert (E0 : f0 = set_toAccountError None f).
  { subst f0. unfold validateToAccount in *. simpl in *.
    destruct (String.eqb (toAccount f) ""); [done|].
    destruct (match fromAccount f with
              | Some from => String.eqb (toAccount f) (accountNumber from)
              | None => false
              end); [discriminate|done]. }
  assert (O : isOwnAccountTransfer availableFromAccounts f0 = own)
    by now rewrite E0.
  split; [|split; [|split]].
  - intros [[| |]|]; rewrite E0; try reflexivity.
    destruct p; try reflexivity; repeat (destruct p; try reflexivity).
  - intros H. unfold validateToAccount_resume. now rewrite O, H.
  - intros H -> f1. subst f1. unfold validateToAccount_resume.
    rewrite O, H. split; [reflexivity|].
    unfold isFormValid. simpl. now rewrite !andb_false_r.
  - intros H -> f1. subst f1. unfold validateToAccount_resume.
    rewrite O, H.
    assert (X : exists t,
              find (fun acc => String.eqb (accountNumber acc) (toAccount f0))
                availableFromAccounts = Some t).
    { apply find_of_existsb. subst own.
      unfold isOwnAccountTransfer in H. rewrite E0. simpl.
      destruct (fromAccount f); [|discriminate].
      destruct (String.eqb (toAccount f) ""); [discriminate|].
      now apply andb_prop in H as [H _]. }
    destruct X as [t ->]. split.
    + eexists. split; [reflexivity|reflexivity].
    + rewrite E0.
      etransitivity; [apply isFormValid_marked; reflexivity|reflexivity].
Qed.

(** X27. The transfer is submitted with [acceptExchangeRate] as the last
    settled preview left it: on a valid form, submitting after a preview
    response sends the form's data with the flag the response carried, and
    with false after a preview that failed. *)
Theorem submit_carries_preview_flag (f : Form)
    (resp : HttpResult TransferPreview) :
  isFormValid f = true ->
  submitTransfer (getTransferPreview_resume resp f)
  = (set_submitting (getTransferPreview_resume resp f),
     Some (transferData f,
           match resp with
           | HttpOk data => currencyExchangeApplied data
           | HttpError _ => false
           end)).
Proof.
  intros V. unfold submitTransfer.
  assert (V' : isFormValid (getTransferPreview_resume resp f) = true)
    by now destruct resp.
  rewrite V'. simpl. now destruct resp.
Qed.

End TransferFormProperties.

(** ** The debounced recipient search *)
Section SearchProperties.
Import TransferModal.

Lemma debounced_mounted : debounced mounted.
Proof. split; [now left|constructor]. Qed.

Lemma debouncedSearch_one_timer (s : Search) :
  debounced s ->
  timers (debouncedSearch s) = [nextTimer s] /\
  debounceTimeout (debouncedSearch s) = Some (nextTimer s).
Proof.
  intros [[E|(h & E & D)] _]; unfold debouncedSearch; simpl; rewrite E.
  - split; [|done]. now destruct (debounceTimeout s).
  - rewrite D. simpl. now rewrite Nat.eqb_refl.
Qed.

Lemma debounced_step (s : Search) (ev : SearchEvent) :
  debounced s -> debounced (searchStep s ev).1.
Proof.
  intros D. destruct ev as [term|h]; simpl.
  - destruct (String.eqb term (searchTerm s)); [exact D|]. simpl.
    set (s1 := mkSearch term (searchResults s) (isSearching s)
                 (searchError s) (debounceTimeout s) (timers s)
                 (nextTimer s)).
    assert (D1 : debounced s1) by exact D.
    destruct (debouncedSearch_one_timer s1 D1) as [T H].
    split; [right; eexists; split; [exact T|exact H]|].
    rewrite T. constructor; [simpl; lia|constructor].
  - destruct (existsb (fun h' => (h' =? h)%nat) (timers s)) eqn:X; [|exact D].
    destruct D as [[E|(h0 & E & D)] F].
    + rewrite E in X. discriminate.
    + rewrite E in X. simpl in X. rewrite orb_false_r in X.
      unfold searchAccounts. simpl. rewrite E. simpl. rewrite X. simpl.
      destruct (_ || _); simpl; (split; [now left|constructor]).
Qed.

Lemma debounced_run (evs : list SearchEvent) (s : Search) :
  debounced s -> debounced (searchRun evs s).1.
Proof.
  revert s. induction evs as [|ev evs IH]; intros s D; [exact D|].
  simpl. pose proof (debounced_step s ev D) as D1.
  destruct (searchStep s ev) as [s1 sent1]. specialize (IH s1 D1).
  now destruct (searchRun evs s1).
Qed.

Lemma last_nonempty (l : list string) (a d d' : string) :
  List.last (a :: l) d = List.last (a :: l) d'.
Proof.
  revert a. induction l as [|b l IH]; intros a; [done|].
  change (List.last (b :: l) d = List.last (b :: l) d'). apply IH.
Qed.

Lemma last_after_head (terms : list string) (t d : string) :
  List.last terms t = List.last (t :: terms) d.
Proof.
  destruct terms as [|a l]; [done|].
  change (List.last (a :: l) t = List.last (a :: l) d). apply last_nonempty.
Qed.

Lemma typing_sends_nothing (terms : list string) (s : Search) :
  (searchRun (map Typed terms) s).2 = [] /\
  searchTerm (searchRun (map Typed terms) s).1 = List.last terms (searchTerm s).
Proof.
  revert s. induction terms as [|t terms IH]; intros s; [done|].
  assert (S1 : exists s1, searchStep s (Typed t) = (s1, []) /\
                          searchTerm s1 = t).
  { simpl. destruct (String.eqb_spec t (searchTerm s)) as [->|]; eauto. }
  destruct S1 as (s1 & E1 & T). destruct (IH s1) as [I1 I2].
  cbn [map searchRun]. rewrite E1.
  destruct (searchRun (map Typed terms) s1) as [s2 sent2]. simpl in *.
  split; [exact I1|]. rewrite I2, T. apply last_after_head.
Qed.


End SearchProperties.

Lemma offline_total_agrees_witness :
  ((CurrencyService.getTotalBalanceInEur
      (AccountStore.toItems [Fixtures.checking; Fixtures.savings]
         [Fixtures.offline; Fixtures.offline]) ∅).1
   == AccountStore.fallbackTotal [Fixtures.checking; Fixtures.savings])%Q.
Proof.
  apply (offline_total_agrees [Fixtures.checking; Fixtures.savings]
           [Fixtures.offline; Fixtures.offline]).
  - reflexivity.
  - repeat constructor; now exists None.
Defined.


Lemma atm_form_valid_iff_witness :
  AtmView.isFormValid Fixtures.depositView = true.
Proof.
  apply (atm_form_valid_iff Fixtures.depositView Fixtures.checking
           CurrencyService.eurLimits); [reflexivity|reflexivity|].
  split; vm_compute; [reflexivity|discriminate].
Defined.

Lemma destination_lookup_outcome_witness :
  TransferModal.toAccountError
    (TransferModal.validateToAccount_resume
       [Fixtures.checking; Fixtures.savings] true (HttpOk tt)
       (TransferModal.validateToAccount Fixtures.toSavings).1)
  = Some "Can't transfer to your own account".
Proof.
  apply (destination_lookup_outcome [Fixtures.checking; Fixtures.savings]
           true Fixtures.toSavings
           "/account/details/NL01INHO0000000002");
    reflexivity.
Defined.

Lemma submit_carries_preview_flag_witness :
  (TransferModal.submitTransfer
     (TransferModal.getTransferPreview_resume (HttpError (Some 500))
        (Fixtures.withAmount 10))).2
  = Some (TransferModal.transferData (Fixtures.withAmount 10), false).
Proof.
  rewrite (submit_carries_preview_flag (Fixtures.withAmount 10)
             (HttpError (Some 500))); [reflexivity|].
  vm_compute. reflexivity.
Defined.
